(** * Recordings backend: [server.js]

    A shallow embedding of the Express application of [server.js]: four API
    handlers that keep a SQLite table [recordings] (metadata) next to a
    Supabase storage bucket ["uploads"] (payloads), followed by the optional
    frontend layers and the 404 fallback.

    What lives outside the repository is kept outside the definitions:
    - the clock readings, and the [error] field the storage provider answers
      with, are read from a per-request environment [Env];
    - the provider's URL construction [getPublicUrl], SQLite's conversion of a
      text parameter compared with the INTEGER key [text_to_rowid], the
      percent-encoding of a redirect address [encodeUrl], and the
      answers of the library middlewares [express_json] and [express_static]
      are variables of the section;
    - the storage bucket itself is represented by the log of the calls the
      handlers issue to it.
    The SQLite engine is modelled by its documented behaviour on this schema;
    I/O faults of the engine are outside the model, the one engine error kept
    is SQLITE_FULL on an exhausted AUTOINCREMENT key. *)

From Stdlib Require Import ZArith List Bool Lia.
From Stdlib Require Import Strings.String Strings.Ascii Strings.Byte.
From Stdlib Require Import Numbers.DecimalString.
From Stdlib Require Numbers.DecimalZ Numbers.DecimalPos.
From Stdlib Require Import Sorting.Sorted Sorting.Permutation.
Import ListNotations.

Local Open Scope Z_scope.
Local Open Scope list_scope.

(* ------------------------------------------------------------------ *)
(** ** JavaScript values used by the handlers *)

Module Js.

(** [String(n)] of an integral number, as a template literal prints it. *)
Definition number_toString (n : Z) : string :=
  NilZero.string_of_int (Z.to_int n).

(** [s.split(sep)] for a separator of one character: never an empty array. *)
Fixpoint split (sep : ascii) (s : string) : list string :=
  match s with
  | EmptyString => [EmptyString]
  | String c rest =>
      if Ascii.eqb c sep then EmptyString :: split sep rest
      else match split sep rest with
           | piece :: pieces => String c piece :: pieces
           | [] => [String c EmptyString]
           end
  end.

(** [a.pop()], read for the element it returns. On an empty array JavaScript
    gives [undefined]; [split] never produces one, the default stands for it. *)
Definition pop (a : list string) : string := last a EmptyString.

(** Whether the character occurs in the string. *)
Fixpoint occurs (c : ascii) (s : string) : bool :=
  match s with
  | EmptyString => false
  | String x rest => Ascii.eqb x c || occurs c rest
  end.

(** [a.includes(x)] on an array of strings. *)
Definition includes (a : list string) (x : string) : bool :=
  existsb (String.eqb x) a.

(** Truthiness of a string: only the empty string is falsy. *)
Definition truthy (s : string) : bool :=
  match s with EmptyString => false | String _ _ => true end.

End Js.

(** [path.join(dir, file)] for two plain segments. *)
Definition path_join (dir file : string) : string :=
  String.append dir (String "/" file).

(* ------------------------------------------------------------------ *)
(** ** The [recordings] table

    [[
    CREATE TABLE IF NOT EXISTS recordings (
      id INTEGER PRIMARY KEY AUTOINCREMENT,
      filename TEXT NOT NULL, url TEXT NOT NULL, filesize INTEGER NOT NULL,
      createdAt TIMESTAMP DEFAULT CURRENT_TIMESTAMP)
    ]]
    A row is also the JSON object the API sends for a recording. *)

Record Recording := mkRecording {
  id : Z;
  filename : string;
  url : string;
  filesize : Z;
  createdAt : string
}.

(** The table in rowid order, and the AUTOINCREMENT counter SQLite keeps in
    [sqlite_sequence]: the largest rowid the table ever held. *)
Record Database := mkDatabase {
  recordings : list Recording;
  sqlite_sequence : Z
}.

(** An INTEGER that SQLite hands to JavaScript becomes a number, an IEEE
    double: exact up to 2^53 in magnitude, beyond that the nearest multiple
    of the spacing 2^(log2 |z| - 52), ties to the even multiple. *)
Definition js_number (z : Z) : Z :=
  let a := Z.abs z in
  if a <=? 2 ^ 53 then z
  else
    let ulp := 2 ^ (Z.log2 a - 52) in
    let q := a / ulp in
    let r := a mod ulp in
    let half := ulp / 2 in
    let up := if r <? half then false
              else if half <? r then true
              else Z.odd q in
    Z.sgn z * ((if up then q + 1 else q) * ulp).

Arguments js_number : simpl never.

(** A row as [db.get] and [db.all] hand it to the handlers: the INTEGER
    columns read as JavaScript numbers, the TEXT columns as they are. *)
Definition js_row (r : Recording) : Recording :=
  {| id := js_number (id r);
     filename := filename r;
     url := url r;
     filesize := js_number (filesize r);
     createdAt := createdAt r |}.

(** A database file that did not exist before [initDB]. *)
Definition empty_db : Database :=
  {| recordings := []; sqlite_sequence := 0 |}.

Definition MAX_ROWID : Z := 9223372036854775807.

Definition max_rowid (t : list Recording) : Z :=
  fold_right (fun r m => Z.max (id r) m) 0 t.

(** AUTOINCREMENT: one more than the largest rowid that ever existed in the
    table; no rowid is left once the largest possible one was used. *)
Definition next_rowid (d : Database) : option Z :=
  let largest := Z.max (sqlite_sequence d) (max_rowid (recordings d)) in
  if MAX_ROWID <=? largest then None else Some (largest + 1).

(** [INSERT INTO recordings (filename, url, filesize) VALUES (?, ?, ?)] at
    the moment CURRENT_TIMESTAMP reads [now]; [None] is SQLITE_FULL.
    The result carries [lastID]. *)
Definition insert_recording (fname address : string) (fsize : Z)
    (now : string) (d : Database) : option (Z * Database) :=
  match next_rowid d with
  | None => None
  | Some k =>
      Some (k, {| recordings :=
                    recordings d ++ [mkRecording k fname address fsize now];
                  sqlite_sequence := k |})
  end.

(** [ORDER BY createdAt DESC]: TEXT values compare bytewise.  SQL leaves the
    order of equal keys open; here the scan order (rowid) is kept for them. *)
Fixpoint insert_desc (r : Recording) (sorted : list Recording) : list Recording :=
  match sorted with
  | [] => [r]
  | y :: ys =>
      if String.ltb (createdAt r) (createdAt y)
      then y :: insert_desc r ys
      else r :: y :: ys
  end.

Definition order_by_createdAt_desc (t : list Recording) : list Recording :=
  fold_right insert_desc [] t.

(** [SELECT * FROM recordings ORDER BY createdAt DESC] *)
Definition select_all (d : Database) : list Recording :=
  order_by_createdAt_desc (recordings d).

(* ------------------------------------------------------------------ *)
(** ** Requests, responses, and the outside world *)

Record File := mkFile {
  buffer : list byte;
  size : Z
}.

Record StorageError := mkStorageError { message : string }.

(** What one request observes of the world outside the process. *)
Record Env := mkEnv {
  Date_now : Z;                          (* Date.now(), milliseconds *)
  upload_error : option StorageError;    (* { error } of storage upload *)
  CURRENT_TIMESTAMP : string;            (* SQLite's clock at the INSERT *)
  new_Date_toISOString : string;         (* new Date().toISOString() *)
  remove_error : option StorageError     (* { error } of storage remove *)
}.

(** Calls issued to Supabase storage, oldest first. *)
Inductive StorageCall :=
| Upload (bucket object_name : string) (payload : list byte) (contentType : string)
| Remove (bucket : string) (object_names : list string).

Record World := mkWorld {
  db : Database;
  storage_calls : list StorageCall
}.

Inductive Body :=
| JsonError (error : string)
| JsonMessage (msg : string)
| JsonUploaded (msg : string) (recording : Recording)
| JsonRecordings (rows : list Recording)
| Redirect (location : string)
| Text (content : string)
| SendFile (file_path : string)
| ErrorPage
| NoContent.

Record Response := mkResponse {
  status : Z;
  body : Body
}.

(* ------------------------------------------------------------------ *)
(** ** Handler monad: the world threaded through, [throw] and [try/catch] *)

Inductive Exn :=
| StorageExn (e : StorageError)
| SqliteExn (code : string).

Definition M (A : Type) : Type := World -> (Exn + A) * World.

Definition ret {A} (a : A) : M A := fun w => (inr a, w).

Definition throw {A} (e : Exn) : M A := fun w => (inl e, w).

Definition bind {A B} (m : M A) (k : A -> M B) : M B :=
  fun w =>
    match m w with
    | (inl e, w') => (inl e, w')
    | (inr a, w') => k a w'
    end.

Definition try_catch {A} (m : M A) (handler : Exn -> M A) : M A :=
  fun w =>
    match m w with
    | (inl e, w') => handler e w'
    | (inr a, w') => (inr a, w')
    end.

Declare Scope handler_scope.
Delimit Scope handler_scope with handler.
Notation "x <- m ;; k" := (bind m (fun x => k))
  (at level 100, m at next level, right associativity) : handler_scope.
Notation "m ;;; k" := (bind m (fun _ => k))
  (at level 100, right associativity) : handler_scope.

(** An [async] route handler as Express runs it.  An exception that leaves
    the handler would reach Express's default error handler. *)
Definition run_handler (m : M Response) (w : World) : Response * World :=
  match m w with
  | (inr r, w') => (r, w')
  | (inl _, w') => (mkResponse 500 ErrorPage, w')
  end.

Definition res_status_json (code : Z) (b : Body) : M Response :=
  ret (mkResponse code b).

Definition res_json (b : Body) : M Response := ret (mkResponse 200 b).

(** [supabase.storage.from(bucket).upload(name, buffer, { contentType })] *)
Definition storage_upload (env : Env) (bucket name : string)
    (payload : list byte) (contentType : string) : M (option StorageError) :=
  fun w =>
    (inr (upload_error env),
     {| db := db w;
        storage_calls := storage_calls w ++ [Upload bucket name payload contentType] |}).

(** [supabase.storage.from(bucket).remove(names)] *)
Definition storage_remove (env : Env) (bucket : string) (names : list string)
    : M (option StorageError) :=
  fun w =>
    (inr (remove_error env),
     {| db := db w;
        storage_calls := storage_calls w ++ [Remove bucket names] |}).

(** [db.run(`INSERT ...`, [filename, url, filesize])], giving [result.lastID]. *)
Definition db_run_insert (env : Env) (fname address : string) (fsize : Z) : M Z :=
  fun w =>
    match insert_recording fname address fsize (CURRENT_TIMESTAMP env) (db w) with
    | None => (inl (SqliteExn "SQLITE_FULL"), w)
    | Some (rowid, d) =>
        (inr (js_number rowid), {| db := d; storage_calls := storage_calls w |})
    end.

(** [db.all(`SELECT * FROM recordings ORDER BY createdAt DESC`)] *)
Definition db_all : M (list Recording) :=
  fun w => (inr (map js_row (select_all (db w))), w).

Definition uniqueName_at (now : Z) : string :=
  String.append "recording-" (String.append (Js.number_toString now) ".webm").

(* ------------------------------------------------------------------ *)
(** ** The application *)

Inductive Method := GET | HEAD | POST | DELETE | OPTIONS | OtherMethod (name : string).

(** The request path as Express's router classifies it against the two
    registered patterns, ["/api/recordings"] and ["/api/recordings/:id"]. *)
Inductive Path :=
| ApiRecordings
| ApiRecordingsId (id_param : string)
| OtherPath (pathname : string).

Record Request := mkRequest {
  method : Method;
  path : Path;
  origin : option string;     (* the Origin header *)
  file : option File          (* req.file, as upload.single("recording") leaves it *)
}.

Definition allowedOrigins : list string :=
  ["http://localhost:5173"%string; "https://frontend-eta-bay-40.vercel.app"%string].

(** The [origin] callback given to [cors]:
    [!origin || allowedOrigins.includes(origin)]. *)
Definition cors_origin (o : option string) : bool :=
  match o with
  | None => true
  | Some s => negb (Js.truthy s) || Js.includes allowedOrigins s
  end.

(** The [cors] middleware with that callback: a refused origin is handed to
    Express's error handler, a preflight is answered here, anything else is
    passed on ([None]). *)
Definition cors (req : Request) : option Response :=
  if cors_origin (origin req) then
    match method req with
    | OPTIONS => Some (mkResponse 204 NoContent)
    | _ => None
    end
  else Some (mkResponse 500 ErrorPage).

(* ------------------------------------------------------------------ *)
(** ** Sample surroundings, used to run the handlers on concrete requests *)

Module Sample.

(** Reads a plain decimal integer such as ["7"], on which it agrees with
    SQLite; SQLite reads more spellings of a number than this. *)
Definition text_to_rowid (s : string) : option Z :=
  option_map Z.of_int (NilZero.int_of_string s).

(** A provider that publishes an object under its bucket and name. *)
Definition getPublicUrl (bucket name : string) : string :=
  String.append "https://project.supabase.co/storage/v1/object/public/"
    (String.append bucket (String "/" name)).

(** An encoder that escapes a space, as [res.redirect] does; the sample
    addresses hold no character that it escapes. *)
Fixpoint encodeUrl (address : string) : string :=
  match address with
  | EmptyString => EmptyString
  | String c rest =>
      if Ascii.eqb c " "
      then String "%" (String "2" (String "0" (encodeUrl rest)))
      else String c (encodeUrl rest)
  end.

(** Body parser and static files that pass every request on. *)
Definition express_json (_ : Request) : option Z := None.
Definition express_static (_ : string) (_ : Request) : option (Z * string) := None.

Definition webm : File := {| buffer := [x1a; x45; xdf; xa3]; size := 4 |}.

Definition upload_request : Request :=
  {| method := POST; path := ApiRecordings; origin := None; file := Some webm |}.

Definition at_time (ms : Z) (sql iso : string) : Env :=
  {| Date_now := ms; upload_error := None; CURRENT_TIMESTAMP := sql;
     new_Date_toISOString := iso; remove_error := None |}.

Definition env1 : Env :=
  at_time 1735725600000 "2025-01-01 10:00:00" "2025-01-01T10:00:00.412Z".
Definition env2 : Env :=
  at_time 1735725605000 "2025-01-01 10:00:05" "2025-01-01T10:00:05.120Z".

(** The clock was set back three seconds before this request. *)
Definition env_back : Env :=
  at_time 1735725597000 "2025-01-01 09:59:57" "2025-01-01T09:59:57.250Z".

Definition storage_down : StorageError := {| message := "fetch failed" |}.

Definition env_upload_fails : Env :=
  {| Date_now := 1735725600000; upload_error := Some storage_down;
     CURRENT_TIMESTAMP := "2025-01-01 10:00:00";
     new_Date_toISOString := "2025-01-01T10:00:00.412Z"; remove_error := None |}.

Definition env_remove_fails : Env :=
  {| Date_now := 1735725700000; upload_error := None;
     CURRENT_TIMESTAMP := "2025-01-01 10:01:40";
     new_Date_toISOString := "2025-01-01T10:01:40.001Z";
     remove_error := Some storage_down |}.

Definition fresh : World := {| db := empty_db; storage_calls := [] |}.

Definition row1 : Recording :=
  {| id := 1;
     filename := "recording-1735725600000.webm";
     url := getPublicUrl "uploads" "recording-1735725600000.webm";
     filesize := 4;
     createdAt := "2025-01-01 10:00:00" |}.

Definition row2 : Recording :=
  {| id := 2;
     filename := "recording-1735725605000.webm";
     url := getPublicUrl "uploads" "recording-1735725605000.webm";
     filesize := 4;
     createdAt := "2025-01-01 10:00:05" |}.

(** The world after two uploads. *)
Definition stocked : World :=
  {| db := {| recordings := [row1; row2]; sqlite_sequence := 2 |};
     storage_calls :=
       [Upload "uploads" (filename row1) (buffer webm) "video/webm";
        Upload "uploads" (filename row2) (buffer webm) "video/webm"] |}.

(** Two rows at the edge of the rowids JavaScript reads exactly. *)
Definition rowX : Recording :=
  {| id := 9007199254740992;
     filename := "recording-1735725600000.webm";
     url := getPublicUrl "uploads" "recording-1735725600000.webm";
     filesize := 4;
     createdAt := "2025-01-01 10:00:00" |}.

Definition rowY : Recording :=
  {| id := 9007199254740993;
     filename := "recording-1735725605000.webm";
     url := getPublicUrl "uploads" "recording-1735725605000.webm";
     filesize := 4;
     createdAt := "2025-01-01 10:00:05" |}.

Definition beyond : World :=
  {| db := {| recordings := [rowX; rowY]; sqlite_sequence := 9007199254740993 |};
     storage_calls :=
       [Upload "uploads" (filename rowX) (buffer webm) "video/webm";
        Upload "uploads" (filename rowY) (buffer webm) "video/webm"] |}.

(** An empty table whose counter stands at 2^53 - 1, and one at 2^53. *)
Definition at_limit : World :=
  {| db := {| recordings := []; sqlite_sequence := 9007199254740991 |};
     storage_calls := [] |}.

Definition past_limit : World :=
  {| db := {| recordings := []; sqlite_sequence := 9007199254740992 |};
     storage_calls := [] |}.

Definition no_file_request : Request :=
  {| method := POST; path := ApiRecordings; origin := None; file := None |}.

Definition page_request : Request :=
  {| method := GET; path := OtherPath "/dashboard"; origin := None; file := None |}.

Definition put_request : Request :=
  {| method := OtherMethod "PUT"; path := OtherPath "/api/settings";
     origin := Some "http://localhost:5173"%string; file := None |}.

Definition foreign_request : Request :=
  {| method := GET; path := OtherPath "/nowhere";
     origin := Some "https://elsewhere.example"%string; file := None |}.

Definition dist : string := "/app/frontend/dist".

Definition two_uploads : list (Env * Request) :=
  [(env1, upload_request); (env2, upload_request)].

Definition clock_set_back : list (Env * Request) :=
  [(env1, upload_request); (env_back, upload_request)].

(** A deployment where only the Vite build exists. *)
Definition frontendDir : string := "/app/frontend".

Definition existsSync (file_path : string) : bool :=
  String.eqb file_path "/app/frontend/dist".

(** A table whose AUTOINCREMENT counter has reached the last rowid. *)
Definition exhausted : World :=
  {| db := {| recordings := []; sqlite_sequence := MAX_ROWID |};
     storage_calls := [] |}.

(** An upload in the same millisecond as [env1]. *)
Definition env1_again : Env :=
  at_time 1735725600000 "2025-01-01 10:00:00" "2025-01-01T10:00:00.733Z".

Definition public_base : string :=
  "https://project.supabase.co/storage/v1/object/public/uploads".

End Sample.

Section Server.

(** The percent-encoding [res.redirect] applies to the address it is given
    before it sets the Location header (the [encodeurl] package). *)
Variable encodeUrl : string -> string.

(** SQLite compares the INTEGER key with a bound TEXT parameter after trying
    to read the text as a number: the rowid it denotes, if any. *)
Variable text_to_rowid : string -> option Z.

(** [supabase.storage.from(bucket).getPublicUrl(name).data.publicUrl] *)
Variable getPublicUrl : string -> string -> string.

(** [express.json()]: the status of the error it raises on a body it cannot
    read; [None] is [next()]. *)
Variable express_json : Request -> option Z.

(** [express.static(buildFolder)]: the status and the file it answers with
    when the request names a file of the folder; [None] is [next()]. *)
Variable express_static : string -> Request -> option (Z * string).

(** [buildFolder]: the frontend build found at start-up, if any. *)
Variable buildFolder : option string.

(** [res.redirect(address)] *)
Definition res_redirect (address : string) : M Response :=
  ret (mkResponse 302 (Redirect (encodeUrl address))).

Definition id_matches (param : string) (r : Recording) : bool :=
  match text_to_rowid param with
  | Some k => id r =? k
  | None => false
  end.

(** [SELECT * FROM recordings WHERE id = ?] read by [db.get]: the first row. *)
Definition select_by_id (param : string) (d : Database) : option Recording :=
  find (id_matches param) (recordings d).

(** [DELETE FROM recordings WHERE id = ?] *)
Definition delete_by_id (param : string) (d : Database) : Database :=
  {| recordings := filter (fun r => negb (id_matches param r)) (recordings d);
     sqlite_sequence := sqlite_sequence d |}.

Definition db_get (param : string) : M (option Recording) :=
  fun w => (inr (option_map js_row (select_by_id param (db w))), w).

Definition db_run_delete (param : string) : M unit :=
  fun w => (inr tt, {| db := delete_by_id param (db w);
                       storage_calls := storage_calls w |}).

Local Open Scope handler_scope.

(** [app.post("/api/recordings", upload.single("recording"), ...)] *)
Definition post_recordings (env : Env) (req : Request) : World -> Response * World :=
  run_handler
    (try_catch
       (match file req with
        | None => res_status_json 400 (JsonError "No file uploaded")
        | Some f =>
            let uniqueName := uniqueName_at (Date_now env) in
            storageError <- storage_upload env "uploads" uniqueName (buffer f) "video/webm" ;;
            match storageError with
            | Some e => throw (StorageExn e)
            | None =>
                let publicUrl := getPublicUrl "uploads" uniqueName in
                lastID <- db_run_insert env uniqueName publicUrl (size f) ;;
                res_status_json 201
                  (JsonUploaded "Recording uploaded successfully"
                     {| id := lastID;
                        filename := uniqueName;
                        url := publicUrl;
                        filesize := size f;
                        createdAt := new_Date_toISOString env |})
            end
        end)
       (fun _ => res_status_json 500 (JsonError "Failed to upload recording"))).

(** [app.get("/api/recordings", ...)] *)
Definition get_recordings : World -> Response * World :=
  run_handler
    (try_catch
       (rows <- db_all ;;
        res_json (JsonRecordings rows))
       (fun _ => res_status_json 500 (JsonError "Failed to fetch recordings"))).

(** [app.get("/api/recordings/:id", ...)] *)
Definition get_recording (id_param : string) : World -> Response * World :=
  run_handler
    (try_catch
       (recording <- db_get id_param ;;
        match recording with
        | None => res_status_json 404 (JsonError "Recording not found")
        | Some r => res_redirect (url r)
        end)
       (fun _ => res_status_json 500 (JsonError "Failed to stream recording"))).

(** [app.delete("/api/recordings/:id", ...)] *)
Definition delete_recording (env : Env) (id_param : string) : World -> Response * World :=
  run_handler
    (try_catch
       (recording <- db_get id_param ;;
        match recording with
        | None => res_status_json 404 (JsonError "Recording not found")
        | Some r =>
            let fileName := Js.pop (Js.split "/" (url r)) in
            storageError <- storage_remove env "uploads" [fileName] ;;
            match storageError with
            | Some _ =>
                res_status_json 500 (JsonError "Failed to delete file from Supabase")
            | None =>
                db_run_delete id_param ;;;
                res_json (JsonMessage "Recording deleted successfully")
            end
        end)
       (fun _ => res_status_json 500 (JsonError "Failed to delete recording"))).

Local Close Scope handler_scope.

(** [res.status(404).send("Route not found")] *)
Definition not_found : Response := mkResponse 404 (Text "Route not found").

(** The layers registered after the API routes: the static files and the
    catch-all [app.get(/.*/)] when a build folder was found, then the 404
    middleware.  A GET route also answers HEAD. *)
Definition frontend_and_fallback (req : Request) : Response :=
  match buildFolder with
  | Some folder =>
      match express_static folder req with
      | Some (code, served) => mkResponse code (SendFile served)
      | None =>
          match method req with
          | GET | HEAD => mkResponse 200 (SendFile (path_join folder "index.html"))
          | _ => not_found
          end
      end
  | None => not_found
  end.

(** Whether one of the four API routes takes the request. *)
Definition api_route (req : Request) : bool :=
  match method req, path req with
  | POST, ApiRecordings => true
  | (GET | HEAD), ApiRecordings => true
  | (GET | HEAD), ApiRecordingsId _ => true
  | DELETE, ApiRecordingsId _ => true
  | _, _ => false
  end.

(** The middleware stack in registration order. *)
Definition app (env : Env) (req : Request) (w : World) : Response * World :=
  match cors req with
  | Some refused => (refused, w)
  | None =>
      match express_json req with
      | Some code => (mkResponse code ErrorPage, w)
      | None =>
          match method req, path req with
          | POST, ApiRecordings => post_recordings env req w
          | (GET | HEAD), ApiRecordings => get_recordings w
          | (GET | HEAD), ApiRecordingsId p => get_recording p w
          | DELETE, ApiRecordingsId p => delete_recording env p w
          | _, _ => (frontend_and_fallback req, w)
          end
      end
  end.

(** A history of requests served one after the other. *)
Fixpoint serve (history : list (Env * Request)) (w : World) : list Response * World :=
  match history with
  | [] => ([], w)
  | (env, req) :: later =>
      let '(r, w1) := app env req w in
      let '(rs, w2) := serve later w1 in
      (r :: rs, w2)
  end.

(** The id a response reports for a recording it created. *)
Definition created_id (r : Response) : option Z :=
  match body r with
  | JsonUploaded _ rec => if status r =? 201 then Some (id rec) else None
  | _ => None
  end.

Fixpoint created_ids (rs : list Response) : list Z :=
  match rs with
  | [] => []
  | r :: rest =>
      match created_id r with
      | Some k => k :: created_ids rest
      | None => created_ids rest
      end
  end.

(** The schema's guarantees on the stored table: the primary key is unique,
    and no row carries a rowid above the AUTOINCREMENT counter. *)
Definition db_wf (d : Database) : Prop :=
  NoDup (map id (recordings d)) /\
  Forall (fun r => id r <= sqlite_sequence d) (recordings d).

(** A run of create requests handed to the upload handler one by one. *)
Fixpoint create_all (uploads : list (Env * Request)) (w : World)
    : list Response * World :=
  match uploads with
  | [] => ([], w)
  | (env, req) :: later =>
      let '(r, w1) := post_recordings env req w in
      let '(rs, w2) := create_all later w1 in
      (r :: rs, w2)
  end.

(** The request names a stored row / names none. *)
Definition present (id_param : string) (d : Database) : Prop :=
  exists r, In r (recordings d) /\ text_to_rowid id_param = Some (id r).

Definition absent (id_param : string) (d : Database) : Prop :=
  forall r, In r (recordings d) -> text_to_rowid id_param <> Some (id r).

(** The frontend layers leave the request to the 404 middleware. *)
Definition frontend_passes (req : Request) : Prop :=
  match buildFolder with
  | None => True
  | Some folder =>
      express_static folder req = None /\ method req <> GET /\ method req <> HEAD
  end.

(** Newest first: no row is followed by one created later. *)
Definition newest_first (a b : Recording) : Prop :=
  String.ltb (createdAt a) (createdAt b) = false.

Definition earlier (s t : string) : Prop := String.ltb s t = true.

(** The CURRENT_TIMESTAMP readings of a run of uploads, in order. *)
Definition timestamps (uploads : list (Env * Request)) : list string :=
  map (fun u => CURRENT_TIMESTAMP (fst u)) uploads.

Definition created (r : Response) : Prop := status r = 201.

(** The world after the upload call of a create request. *)
Definition uploaded (env : Env) (f : File) (w : World) : World :=
  {| db := db w;
     storage_calls :=
       storage_calls w
       ++ [Upload "uploads" (uniqueName_at (Date_now env)) (buffer f) "video/webm"] |}.

(** The world after the remove call of a delete request on row [r]. *)
Definition removed (r : Recording) (d : Database) (w : World) : World :=
  {| db := d;
     storage_calls :=
       storage_calls w ++ [Remove "uploads" [Js.pop (Js.split "/" (url r))]] |}.

(** A rowid that was handed out before and is no longer in the table. *)
Definition retired (k : Z) (d : Database) : Prop :=
  k <= sqlite_sequence d /\ ~ In k (map id (recordings d)).

(** The choice of [buildFolder] at start-up: [dist] (Vite) when it exists,
    else [build] (CRA) when it exists, else none. *)
Definition choose_buildFolder (existsSync : string -> bool) (frontendDir : string)
    : option string :=
  if existsSync (path_join frontendDir "dist")
  then Some (path_join frontendDir "dist")
  else if existsSync (path_join frontendDir "build")
       then Some (path_join frontendDir "build")
       else None.

(** The answer of a delete that went through. *)
Definition deleted (r : Response) : bool :=
  match body r with
  | JsonMessage _ => status r =? 200
  | _ => false
  end.

(** The object name the delete handler derives from a stored address. *)
Definition fileName_of (address : string) : string :=
  Js.pop (Js.split "/" address).

(** A row as the upload handler writes it: named after an instant, with the
    provider's address of that name, after an upload call for that name. *)
Definition uploaded_row (calls : list StorageCall) (r : Recording) : Prop :=
  (exists now, filename r = uniqueName_at now) /\
  url r = getPublicUrl "uploads" (filename r) /\
  exists payload, In (Upload "uploads" (filename r) payload "video/webm") calls.

(** Rowids in table order: ascending, from 1 up to the counter. *)
Definition rowids_ascending (d : Database) : Prop :=
  StronglySorted Z.lt (map id (recordings d)) /\
  Forall (fun r => 1 <= id r <= sqlite_sequence d) (recordings d) /\
  0 <= sqlite_sequence d <= MAX_ROWID.

Ltac run_handler_body :=
  unfold run_handler, try_catch, bind, res_status_json, res_json, res_redirect,
    ret, throw, storage_upload, storage_remove, db_run_insert, db_all, db_get,
    db_run_delete; simpl.


(* ------------------------------------------------------------------ *)
(** ** Text: order, splitting, printed numbers *)

Lemma compare_not_lt_trans (a b c : string) :
  String.compare a b <> Lt -> String.compare b c <> Lt -> String.compare a c <> Lt.
Proof.
  revert b c.
  induction a as [|x a IH]; intros [|y b] [|z c]; simpl; try congruence.
  unfold Ascii.compare.
  destruct (N.compare_spec (N_of_ascii x) (N_of_ascii y));
    destruct (N.compare_spec (N_of_ascii y) (N_of_ascii z));
    destruct (N.compare_spec (N_of_ascii x) (N_of_ascii z));
    try congruence; try lia; eauto.
Qed.

Lemma compare_lt_trans (a b c : string) :
  String.compare a b = Lt -> String.compare b c = Lt -> String.compare a c = Lt.
Proof.
  revert b c.
  induction a as [|x a IH]; intros [|y b] [|z c]; simpl; try congruence.
  unfold Ascii.compare.
  destruct (N.compare_spec (N_of_ascii x) (N_of_ascii y));
    destruct (N.compare_spec (N_of_ascii y) (N_of_ascii z));
    destruct (N.compare_spec (N_of_ascii x) (N_of_ascii z));
    try congruence; try lia; eauto.
Qed.

Lemma ltb_false_compare (s t : string) :
  String.ltb s t = false <-> String.compare s t <> Lt.
Proof.
  unfold String.ltb. destruct (String.compare s t); split; congruence.
Qed.

Lemma ltb_true_compare (s t : string) :
  String.ltb s t = true <-> String.compare s t = Lt.
Proof.
  unfold String.ltb. destruct (String.compare s t); split; congruence.
Qed.

Lemma earlier_not_later (s t : string) :
  String.ltb s t = true -> String.ltb t s = false.
Proof.
  rewrite ltb_true_compare, ltb_false_compare, (String.compare_antisym s t).
  destruct (String.compare t s); simpl; congruence.
Qed.

Lemma earlier_trans (s t u : string) : earlier s t -> earlier t u -> earlier s u.
Proof.
  unfold earlier. rewrite !ltb_true_compare. apply compare_lt_trans.
Qed.

Lemma newest_first_trans (a b c : Recording) :
  newest_first a b -> newest_first b c -> newest_first a c.
Proof.
  unfold newest_first. rewrite !ltb_false_compare. apply compare_not_lt_trans.
Qed.

Lemma split_nonempty (sep : ascii) (s : string) : Js.split sep s <> [].
Proof.
  destruct s as [|c rest]; simpl; [discriminate|].
  destruct (Ascii.eqb c sep); [discriminate|].
  destruct (Js.split sep rest); discriminate.
Qed.

Lemma split_without (sep : ascii) (s : string) :
  Js.occurs sep s = false -> Js.split sep s = [s].
Proof.
  induction s as [|c rest IH]; simpl; intros H; [reflexivity|].
  apply orb_false_iff in H as [Hc Hrest].
  rewrite Hc, (IH Hrest). reflexivity.
Qed.

Lemma split_append (sep : ascii) (base tail : string) :
  Js.split sep (String.append base (String sep tail))
  = Js.split sep base ++ Js.split sep tail.
Proof.
  induction base as [|c rest IH]; simpl.
  - rewrite Ascii.eqb_refl. reflexivity.
  - rewrite IH. destruct (Ascii.eqb c sep); [reflexivity|].
    destruct (Js.split sep rest) eqn:E; [|reflexivity].
    now apply split_nonempty in E.
Qed.

Lemma pop_app (a b : list string) : b <> [] -> Js.pop (a ++ b) = Js.pop b.
Proof.
  unfold Js.pop. intros Hb.
  induction a as [|x a IH]; [reflexivity|].
  simpl. destruct (a ++ b) eqn:E; [|exact IH].
  apply app_eq_nil in E as [_ E]. contradiction.
Qed.

Lemma occurs_append (c : ascii) (s t : string) :
  Js.occurs c (String.append s t) = Js.occurs c s || Js.occurs c t.
Proof.
  induction s as [|x s IH]; simpl; [reflexivity|].
  rewrite IH. apply orb_assoc.
Qed.

Lemma digits_without_slash (d : Decimal.uint) :
  Js.occurs "/" (NilEmpty.string_of_uint d) = false.
Proof.
  induction d; simpl; auto.
Qed.

Lemma number_without_slash (n : Z) : Js.occurs "/" (Js.number_toString n) = false.
Proof.
  unfold Js.number_toString, NilZero.string_of_int, NilZero.string_of_uint.
  destruct (Z.to_int n) as [d|d]; destruct d; simpl;
    auto using digits_without_slash.
Qed.

Lemma uniqueName_without_slash (now : Z) :
  Js.occurs "/" (uniqueName_at now) = false.
Proof.
  unfold uniqueName_at.
  rewrite !occurs_append, number_without_slash. reflexivity.
Qed.

(** The trailing segment of an address that ends in ["/" ++ name]. *)
Lemma pop_split_public_url (base : string) (now : Z) :
  Js.pop (Js.split "/" (String.append base (String "/" (uniqueName_at now))))
  = uniqueName_at now.
Proof.
  rewrite split_append, pop_app by apply split_nonempty.
  rewrite split_without by apply uniqueName_without_slash.
  reflexivity.
Qed.

(* ------------------------------------------------------------------ *)
(** ** JavaScript numbers *)

Lemma js_number_exact (z : Z) : Z.abs z <= 2 ^ 53 -> js_number z = z.
Proof.
  intros H. unfold js_number.
  destruct (Z.abs z <=? 2 ^ 53) eqn:E; [reflexivity|].
  apply Z.leb_gt in E. lia.
Qed.

(** Beyond 2^53 a rowid is read as a number of magnitude 2^53 at least. *)
Lemma js_number_large (z : Z) : 2 ^ 53 < Z.abs z -> 2 ^ 53 <= Z.abs (js_number z).
Proof.
  intros H. unfold js_number.
  destruct (Z.abs z <=? 2 ^ 53) eqn:E; [apply Z.leb_le in E; lia|].
  set (a := Z.abs z) in *.
  assert (Ha : 0 < a) by lia.
  assert (He : 53 <= Z.log2 a).
  { rewrite <- (Z.log2_pow2 53) by lia. apply Z.log2_le_mono. lia. }
  destruct (Z.log2_spec a Ha) as [Hlow _].
  set (e := Z.log2 a) in *.
  set (ulp := 2 ^ (e - 52)).
  assert (Hulp : 0 < ulp) by (apply Z.pow_pos_nonneg; lia).
  assert (Hsplit : 2 ^ e = 2 ^ 52 * ulp).
  { unfold ulp. rewrite <- Z.pow_add_r by lia. f_equal. lia. }
  assert (Hq : 2 ^ 52 <= a / ulp).
  { apply Z.div_le_lower_bound; [exact Hulp|]. rewrite Z.mul_comm. lia. }
  assert (Hbig : 2 ^ 53 <= 2 ^ e) by (apply Z.pow_le_mono_r; lia).
  set (q := a / ulp) in *.
  set (up := if a mod ulp <? ulp / 2 then false
             else if ulp / 2 <? a mod ulp then true else Z.odd q).
  assert (Hm : 2 ^ e <= (if up then q + 1 else q) * ulp).
  { rewrite Hsplit. apply Z.mul_le_mono_nonneg_r; [lia|]. destruct up; lia. }
  assert (Hz : z <> 0) by (unfold a in Ha; lia).
  assert (Hone : Z.abs (Z.sgn z) = 1).
  { destruct z; simpl; try reflexivity. contradiction. }
  rewrite Z.abs_mul, Hone, Z.mul_1_l, Z.abs_eq by lia. lia.
Qed.

(** A rowid read as a number below 2^53 in magnitude is that rowid. *)
Lemma js_number_small_result (z j : Z) :
  js_number z = j -> Z.abs j < 2 ^ 53 -> z = j.
Proof.
  intros Hj Hsmall.
  destruct (Z_le_gt_dec (Z.abs z) (2 ^ 53)) as [Hz|Hz].
  - now rewrite js_number_exact in Hj.
  - apply Z.gt_lt, js_number_large in Hz. rewrite Hj in Hz. lia.
Qed.

(* ------------------------------------------------------------------ *)
(** ** The table: ORDER BY, rowids, lookup and deletion *)

Lemma insert_desc_permutation (r : Recording) (l : list Recording) :
  Permutation (r :: l) (insert_desc r l).
Proof.
  induction l as [|y ys IH]; simpl; [apply Permutation_refl|].
  destruct (String.ltb (createdAt r) (createdAt y)); [|apply Permutation_refl].
  eapply perm_trans; [apply perm_swap|]. now apply perm_skip.
Qed.

Lemma order_by_permutation (t : list Recording) :
  Permutation t (order_by_createdAt_desc t).
Proof.
  induction t as [|r t IH]; simpl; [constructor|].
  eapply perm_trans; [apply perm_skip, IH|]. apply insert_desc_permutation.
Qed.

Lemma insert_desc_sorted (r : Recording) (l : list Recording) :
  StronglySorted newest_first l -> StronglySorted newest_first (insert_desc r l).
Proof.
  induction l as [|y ys IH]; simpl; intros Hs.
  - constructor; constructor.
  - apply StronglySorted_inv in Hs as [Hys Hy].
    destruct (String.ltb (createdAt r) (createdAt y)) eqn:E.
    + constructor; [now apply IH|].
      eapply Permutation_Forall; [apply insert_desc_permutation|].
      constructor; [|exact Hy].
      now apply earlier_not_later.
    + constructor; [now constructor|].
      constructor; [exact E|].
      eapply Forall_impl; [|exact Hy].
      intros z Hz. now apply newest_first_trans with y.
Qed.

Lemma order_by_sorted (t : list Recording) :
  StronglySorted newest_first (order_by_createdAt_desc t).
Proof.
  induction t as [|r t IH]; simpl; [constructor|].
  now apply insert_desc_sorted.
Qed.

Lemma order_by_in (t : list Recording) (r : Recording) :
  In r (order_by_createdAt_desc t) <-> In r t.
Proof.
  split; apply Permutation_in;
    [apply Permutation_sym|]; apply order_by_permutation.
Qed.

(** A row created later than all stored ones is listed in front of them. *)
Lemma order_by_latest_first (r : Recording) (t acc : list Recording) :
  Forall (fun x => earlier (createdAt x) (createdAt r)) t ->
  fold_right insert_desc (r :: acc) t = r :: fold_right insert_desc acc t.
Proof.
  induction 1 as [|x t Hx _ IH]; simpl; [reflexivity|].
  rewrite IH. simpl. unfold earlier in Hx. now rewrite Hx.
Qed.

Lemma order_by_snoc (t : list Recording) (r : Recording) :
  Forall (fun x => earlier (createdAt x) (createdAt r)) t ->
  order_by_createdAt_desc (t ++ [r]) = r :: order_by_createdAt_desc t.
Proof.
  intros H. unfold order_by_createdAt_desc.
  rewrite fold_right_app. simpl. now apply order_by_latest_first.
Qed.

Lemma strictly_increasing_snoc (ts : list string) (t : string) :
  StronglySorted earlier (ts ++ [t]) ->
  StronglySorted earlier ts /\ Forall (fun s => earlier s t) ts.
Proof.
  induction ts as [|s ts IH]; simpl; intros H.
  - split; constructor.
  - apply StronglySorted_inv in H as [Hts Hs].
    destruct (IH Hts) as [Hsorted Hall].
    apply Forall_app in Hs as [Hs Hst].
    split; constructor; auto.
    now inversion Hst.
Qed.

(** With strictly increasing timestamps the listing is the table reversed. *)
Lemma order_by_increasing (t : list Recording) :
  StronglySorted earlier (map createdAt t) ->
  order_by_createdAt_desc t = rev t.
Proof.
  induction t as [|r t IH] using rev_ind; [reflexivity|].
  rewrite map_app. simpl. intros H.
  apply strictly_increasing_snoc in H as [Hsorted Hall].
  rewrite rev_app_distr. simpl.
  rewrite order_by_snoc, IH; auto.
  rewrite Forall_map in Hall. exact Hall.
Qed.

Lemma max_rowid_bound (t : list Recording) (r : Recording) :
  In r t -> id r <= max_rowid t.
Proof.
  induction t as [|x t IH]; simpl; [contradiction|].
  intros [->|H]; [lia|]. specialize (IH H). lia.
Qed.

Lemma insert_recording_inv fname address fsize now d k d' :
  insert_recording fname address fsize now d = Some (k, d') ->
  sqlite_sequence d < k /\
  (forall r, In r (recordings d) -> id r < k) /\
  k <= MAX_ROWID /\
  sqlite_sequence d' = k /\
  recordings d' = recordings d ++ [mkRecording k fname address fsize now].
Proof.
  unfold insert_recording, next_rowid.
  destruct (MAX_ROWID <=? _) eqn:E; [discriminate|].
  intros H. injection H as <- <-. simpl.
  apply Z.leb_gt in E.
  repeat split; try lia.
  intros r Hr. apply max_rowid_bound in Hr. lia.
Qed.

Lemma find_unique (f : Recording -> bool) (before after : list Recording) (r : Recording) :
  Forall (fun x => f x = false) before -> f r = true ->
  find f (before ++ r :: after) = Some r.
Proof.
  induction 1 as [|x before Hx _ IH]; simpl; intros Hr.
  - now rewrite Hr.
  - rewrite Hx. now apply IH.
Qed.

Lemma filter_all (f : Recording -> bool) (l : list Recording) :
  Forall (fun x => f x = true) l -> filter f l = l.
Proof.
  induction 1 as [|x l Hx _ IH]; simpl; [reflexivity|].
  now rewrite Hx, IH.
Qed.

(** Under a unique key, the rows around the one that carries [k] carry
    other keys. *)
Lemma unique_key_split (before after : list Recording) (r : Recording) :
  NoDup (map id (before ++ r :: after)) ->
  Forall (fun x => id x <> id r) before /\ Forall (fun x => id x <> id r) after.
Proof.
  rewrite map_app. simpl. intros H.
  apply NoDup_remove_2 in H.
  split; apply Forall_forall; intros x Hx E; apply H, in_or_app;
    [left|right]; rewrite <- E; now apply in_map.
Qed.

(* ------------------------------------------------------------------ *)
(** ** The handlers, branch by branch *)

Lemma post_recordings_no_file env req w :
  file req = None ->
  post_recordings env req w = (mkResponse 400 (JsonError "No file uploaded"), w).
Proof.
  intros H. unfold post_recordings. rewrite H. reflexivity.
Qed.

Lemma post_recordings_upload_failed env req w f e :
  file req = Some f -> upload_error env = Some e ->
  post_recordings env req w
  = (mkResponse 500 (JsonError "Failed to upload recording"), uploaded env f w).
Proof.
  intros Hf He. unfold post_recordings. rewrite Hf.
  run_handler_body. rewrite He. reflexivity.
Qed.

Lemma post_recordings_table_full env req w f :
  file req = Some f -> upload_error env = None ->
  insert_recording (uniqueName_at (Date_now env))
    (getPublicUrl "uploads" (uniqueName_at (Date_now env)))
    (size f) (CURRENT_TIMESTAMP env) (db w) = None ->
  post_recordings env req w
  = (mkResponse 500 (JsonError "Failed to upload recording"), uploaded env f w).
Proof.
  intros Hf He Hins. unfold post_recordings. rewrite Hf.
  run_handler_body. rewrite He. simpl. rewrite Hins. reflexivity.
Qed.

Lemma post_recordings_created env req w f k d :
  file req = Some f -> upload_error env = None ->
  insert_recording (uniqueName_at (Date_now env))
    (getPublicUrl "uploads" (uniqueName_at (Date_now env)))
    (size f) (CURRENT_TIMESTAMP env) (db w) = Some (k, d) ->
  post_recordings env req w
  = (mkResponse 201
       (JsonUploaded "Recording uploaded successfully"
          {| id := js_number k;
             filename := uniqueName_at (Date_now env);
             url := getPublicUrl "uploads" (uniqueName_at (Date_now env));
             filesize := size f;
             createdAt := new_Date_toISOString env |}),
     {| db := d; storage_calls := storage_calls (uploaded env f w) |}).
Proof.
  intros Hf He Hins. unfold post_recordings. rewrite Hf.
  run_handler_body. rewrite He. simpl. rewrite Hins. reflexivity.
Qed.

(** A 201 answer comes from the last branch only. *)
Lemma post_recordings_201 env req w r w' :
  post_recordings env req w = (r, w') -> status r = 201 ->
  exists f k d,
    file req = Some f /\ upload_error env = None /\
    insert_recording (uniqueName_at (Date_now env))
      (getPublicUrl "uploads" (uniqueName_at (Date_now env)))
      (size f) (CURRENT_TIMESTAMP env) (db w) = Some (k, d) /\
    r = mkResponse 201
          (JsonUploaded "Recording uploaded successfully"
             {| id := js_number k;
                filename := uniqueName_at (Date_now env);
                url := getPublicUrl "uploads" (uniqueName_at (Date_now env));
                filesize := size f;
                createdAt := new_Date_toISOString env |}) /\
    w' = {| db := d; storage_calls := storage_calls (uploaded env f w) |}.
Proof.
  intros Hpost Hstatus.
  destruct (file req) as [f|] eqn:Hf.
  2:{ rewrite post_recordings_no_file in Hpost by assumption.
      injection Hpost as <- <-. discriminate. }
  destruct (upload_error env) as [e|] eqn:He.
  { rewrite (post_recordings_upload_failed _ _ _ _ _ Hf He) in Hpost.
    injection Hpost as <- <-. discriminate. }
  destruct (insert_recording (uniqueName_at (Date_now env))
              (getPublicUrl "uploads" (uniqueName_at (Date_now env)))
              (size f) (CURRENT_TIMESTAMP env) (db w)) as [[k d]|] eqn:Hins.
  - rewrite (post_recordings_created _ _ _ _ _ _ Hf He Hins) in Hpost.
    injection Hpost as <- <-. now exists f, k, d.
  - rewrite (post_recordings_table_full _ _ _ _ Hf He Hins) in Hpost.
    injection Hpost as <- <-. discriminate.
Qed.

Lemma get_recordings_eq w :
  get_recordings w
  = (mkResponse 200 (JsonRecordings (map js_row (select_all (db w)))), w).
Proof. reflexivity. Qed.

Lemma get_recording_not_found p w :
  select_by_id p (db w) = None ->
  get_recording p w = (mkResponse 404 (JsonError "Recording not found"), w).
Proof.
  intros H. unfold get_recording. run_handler_body. rewrite H. reflexivity.
Qed.

Lemma get_recording_found p w r :
  select_by_id p (db w) = Some r ->
  get_recording p w = (mkResponse 302 (Redirect (encodeUrl (url r))), w).
Proof.
  intros H. unfold get_recording. run_handler_body. rewrite H. reflexivity.
Qed.

Lemma delete_recording_not_found env p w :
  select_by_id p (db w) = None ->
  delete_recording env p w = (mkResponse 404 (JsonError "Recording not found"), w).
Proof.
  intros H. unfold delete_recording. run_handler_body. rewrite H. reflexivity.
Qed.

Lemma delete_recording_remove_failed env p w r e :
  select_by_id p (db w) = Some r -> remove_error env = Some e ->
  delete_recording env p w
  = (mkResponse 500 (JsonError "Failed to delete file from Supabase"),
     removed r (db w) w).
Proof.
  intros H He. unfold delete_recording. run_handler_body.
  rewrite H. simpl. rewrite He. reflexivity.
Qed.

Lemma delete_recording_done env p w r :
  select_by_id p (db w) = Some r -> remove_error env = None ->
  delete_recording env p w
  = (mkResponse 200 (JsonMessage "Recording deleted successfully"),
     removed r (delete_by_id p (db w)) w).
Proof.
  intros H He. unfold delete_recording. run_handler_body.
  rewrite H. simpl. rewrite He. reflexivity.
Qed.

(** Lookup against the two readings of "the id is stored". *)
Lemma select_by_id_present p d :
  present p d -> exists r, select_by_id p d = Some r /\ In r (recordings d)
                           /\ text_to_rowid p = Some (id r).
Proof.
  intros (r & Hin & Hp). unfold select_by_id.
  destruct (find (id_matches p) (recordings d)) as [r'|] eqn:E.
  - exists r'. apply find_some in E as [Hin' Hm]. repeat split; auto.
    unfold id_matches in Hm. rewrite Hp in *.
    apply Z.eqb_eq in Hm. now rewrite Hm.
  - exfalso. apply (find_none _ _ E) in Hin.
    unfold id_matches in Hin. rewrite Hp, Z.eqb_refl in Hin. discriminate.
Qed.

Lemma select_by_id_absent p d : absent p d -> select_by_id p d = None.
Proof.
  intros H. unfold select_by_id.
  destruct (find (id_matches p) (recordings d)) as [r|] eqn:E; [|reflexivity].
  apply find_some in E as [Hin Hm]. exfalso. apply (H r Hin).
  unfold id_matches in Hm. destruct (text_to_rowid p); [|discriminate].
  apply Z.eqb_eq in Hm. now rewrite Hm.
Qed.

(* ------------------------------------------------------------------ *)
(** ** What one request can do to the table *)

Lemma post_recordings_effect env req w r w' :
  post_recordings env req w = (r, w') ->
  (created_id r = None /\ db w' = db w) \/
  (exists k fname address fsize,
      created_id r = Some (js_number k) /\
      insert_recording fname address fsize (CURRENT_TIMESTAMP env) (db w)
      = Some (k, db w')).
Proof.
  intros Hpost.
  destruct (file req) as [f|] eqn:Hf.
  2:{ rewrite post_recordings_no_file in Hpost by assumption.
      injection Hpost as <- <-. now left. }
  destruct (upload_error env) as [e|] eqn:He.
  { rewrite (post_recordings_upload_failed _ _ _ _ _ Hf He) in Hpost.
    injection Hpost as <- <-. now left. }
  destruct (insert_recording (uniqueName_at (Date_now env))
              (getPublicUrl "uploads" (uniqueName_at (Date_now env)))
              (size f) (CURRENT_TIMESTAMP env) (db w)) as [[k d]|] eqn:Hins.
  - rewrite (post_recordings_created _ _ _ _ _ _ Hf He Hins) in Hpost.
    injection Hpost as <- <-. right.
    now exists k, (uniqueName_at (Date_now env)),
      (getPublicUrl "uploads" (uniqueName_at (Date_now env))), (size f).
  - rewrite (post_recordings_table_full _ _ _ _ Hf He Hins) in Hpost.
    injection Hpost as <- <-. now left.
Qed.

Lemma delete_recording_effect env p w r w' :
  delete_recording env p w = (r, w') ->
  created_id r = None /\ (db w' = db w \/ db w' = delete_by_id p (db w)).
Proof.
  intros Hdel.
  destruct (select_by_id p (db w)) as [row|] eqn:Hrow.
  2:{ rewrite delete_recording_not_found in Hdel by assumption.
      injection Hdel as <- <-. auto. }
  destruct (remove_error env) as [e|] eqn:He.
  - rewrite (delete_recording_remove_failed _ _ _ _ _ Hrow He) in Hdel.
    injection Hdel as <- <-. auto.
  - rewrite (delete_recording_done _ _ _ _ Hrow He) in Hdel.
    injection Hdel as <- <-. auto.
Qed.

Lemma get_recording_effect p w r w' :
  get_recording p w = (r, w') -> created_id r = None /\ w' = w.
Proof.
  intros Hget.
  destruct (select_by_id p (db w)) as [row|] eqn:Hrow.
  - rewrite (get_recording_found _ _ _ Hrow) in Hget.
    injection Hget as <- <-. auto.
  - rewrite (get_recording_not_found _ _ Hrow) in Hget.
    injection Hget as <- <-. auto.
Qed.

Lemma frontend_creates_nothing req : created_id (frontend_and_fallback req) = None.
Proof.
  unfold frontend_and_fallback.
  destruct buildFolder as [folder|]; [|reflexivity].
  destruct (express_static folder req) as [[code served]|]; [reflexivity|].
  destruct (method req); reflexivity.
Qed.

Lemma app_effect env req w r w' :
  app env req w = (r, w') ->
  (created_id r = None /\
   (db w' = db w \/ exists p, db w' = delete_by_id p (db w))) \/
  (exists k fname address fsize,
      created_id r = Some (js_number k) /\
      insert_recording fname address fsize (CURRENT_TIMESTAMP env) (db w)
      = Some (k, db w')).
Proof.
  unfold app.
  destruct (cors req) as [refused|] eqn:Hcors.
  { intros H. injection H as <- <-. left. split; [|now left].
    unfold cors in Hcors. destruct (cors_origin (origin req)).
    - destruct (method req); try discriminate. now injection Hcors as <-.
    - now injection Hcors as <-. }
  destruct (express_json req) as [code|].
  { intros H. injection H as <- <-. left. split; [reflexivity|now left]. }
  assert (Hother : (frontend_and_fallback req, w) = (r, w') ->
    created_id r = None /\
    (db w' = db w \/ exists p, db w' = delete_by_id p (db w))).
  { intros H. injection H as <- <-. split; [apply frontend_creates_nothing|now left]. }
  destruct (method req), (path req); intros H; auto.
  - (* GET list *) rewrite get_recordings_eq in H. injection H as <- <-. left. auto.
  - (* GET by id *) apply get_recording_effect in H as [? ->]. left. auto.
  - (* HEAD list *) rewrite get_recordings_eq in H. injection H as <- <-. left. auto.
  - (* HEAD by id *) apply get_recording_effect in H as [? ->]. left. auto.
  - (* POST *) apply post_recordings_effect in H as [[? ->]|H]; auto.
  - (* DELETE *) apply delete_recording_effect in H as [? [->| ->]]; left; eauto.
Qed.

Lemma delete_by_id_ids p d k :
  In k (map id (recordings (delete_by_id p d))) -> In k (map id (recordings d)).
Proof.
  simpl. rewrite !in_map_iff. intros (r & <- & Hr).
  apply filter_In in Hr as [Hr _]. eauto.
Qed.

Lemma app_sequence_grows env req w r w' :
  app env req w = (r, w') ->
  sqlite_sequence (db w) <= sqlite_sequence (db w').
Proof.
  intros H. apply app_effect in H as [[_ [-> | [p ->]]] | (k & ? & ? & ? & _ & Hins)];
    simpl; try lia.
  apply insert_recording_inv in Hins. lia.
Qed.

Lemma max_rowid_nonneg (t : list Recording) : 0 <= max_rowid t.
Proof.
  induction t as [|x t IH]; simpl; lia.
Qed.

Lemma insert_recording_positive fname address fsize now d k d' :
  insert_recording fname address fsize now d = Some (k, d') -> 1 <= k.
Proof.
  unfold insert_recording, next_rowid.
  destruct (MAX_ROWID <=? _); [discriminate|].
  intros H. injection H as <- _.
  pose proof (max_rowid_nonneg (recordings d)). lia.
Qed.

(** The id an answer reports is the JavaScript reading of the rowid the
    table assigned, which is positive and becomes the counter. *)
Lemma app_created_above env req w r w' j :
  app env req w = (r, w') -> created_id r = Some j ->
  exists k, j = js_number k /\ 1 <= k /\
            sqlite_sequence (db w) < k /\ sqlite_sequence (db w') = k.
Proof.
  intros H Hj. apply app_effect in H as [[Hnone _] | (k & ? & ? & ? & Hk & Hins)];
    [congruence|].
  exists k. split; [congruence|].
  split; [now apply insert_recording_positive in Hins|].
  apply insert_recording_inv in Hins. lia.
Qed.

Lemma app_keeps_retired env req w r w' k :
  app env req w = (r, w') -> retired k (db w) -> retired k (db w').
Proof.
  intros H [Hseq Hout].
  apply app_effect in H as [[_ [-> | [p ->]]] | (k' & ? & ? & ? & _ & Hins)].
  - now split.
  - split; [exact Hseq|]. intros Hin. now apply Hout, delete_by_id_ids with p.
  - apply insert_recording_inv in Hins as (Hlt & _ & _ & Hseq' & Hrows).
    split; [lia|]. rewrite Hrows, map_app, in_app_iff. simpl.
    intros [Hin|[Hk|[]]]; [contradiction|lia].
Qed.

Lemma serve_keeps_retired history : forall w k,
  retired k (db w) -> retired k (db (snd (serve history w))).
Proof.
  induction history as [|[env req] later IH]; intros w k Hk; [exact Hk|].
  simpl. destruct (app env req w) as [r w1] eqn:Happ.
  specialize (IH w1 k (app_keeps_retired _ _ _ _ _ _ Happ Hk)).
  destruct (serve later w1) as [rs w2]. exact IH.
Qed.

Lemma nodup_ids_filter (f : Recording -> bool) (l : list Recording) :
  NoDup (map id l) -> NoDup (map id (filter f l)).
Proof.
  induction l as [|x l IH]; simpl; intros H; [constructor|].
  inversion H as [|? ? Hx Hl]; subst.
  destruct (f x); simpl; [|now apply IH].
  constructor; [|now apply IH].
  rewrite in_map_iff. intros (y & Hy & Hin).
  apply filter_In in Hin as [Hin _].
  apply Hx. rewrite <- Hy. now apply in_map.
Qed.

Lemma empty_db_wf : db_wf empty_db.
Proof.
  split; constructor.
Qed.

(** Every request leaves the schema's guarantees in place. *)
Lemma app_keeps_wf env req w r w' :
  app env req w = (r, w') -> db_wf (db w) -> db_wf (db w').
Proof.
  intros H [Hnodup Hbound].
  apply app_effect in H as [[_ [-> | [p ->]]] | (k' & ? & ? & ? & _ & Hins)].
  - now split.
  - split; simpl; [now apply nodup_ids_filter|].
    apply Forall_forall. intros x Hx. apply filter_In in Hx as [Hx _].
    rewrite Forall_forall in Hbound. now apply Hbound.
  - apply insert_recording_inv in Hins as (Hlt & Hids & _ & Hseq' & Hrows).
    rewrite Forall_forall in Hbound.
    split; rewrite Hrows.
    + rewrite map_app. simpl.
      eapply Permutation_NoDup; [apply Permutation_cons_append|].
      constructor; [|exact Hnodup]. rewrite in_map_iff.
      intros (y & Hy & Hin). specialize (Hids y Hin). lia.
    + apply Forall_app. split.
      * apply Forall_forall. intros y Hy. specialize (Hbound y Hy). lia.
      * constructor; [simpl; lia|constructor].
Qed.

(** Hence every table reached from an empty database by serving requests
    satisfies them. *)
Lemma serve_keeps_wf history : forall w,
  db_wf (db w) -> db_wf (db (snd (serve history w))).
Proof.
  induction history as [|[env req] later IH]; intros w Hw; [exact Hw|].
  simpl. destruct (app env req w) as [r w1] eqn:Happ.
  specialize (IH w1 (app_keeps_wf _ _ _ _ _ Happ Hw)).
  destruct (serve later w1) as [rs w2]. exact IH.
Qed.

Lemma served_from_empty_wf history (calls : list StorageCall) :
  db_wf (db (snd (serve history {| db := empty_db; storage_calls := calls |}))).
Proof.
  apply serve_keeps_wf. exact empty_db_wf.
Qed.

Lemma serve_sequence_grows history : forall w,
  sqlite_sequence (db w) <= sqlite_sequence (db (snd (serve history w))).
Proof.
  induction history as [|[env req] later IH]; intros w; simpl; [lia|].
  destruct (app env req w) as [r w1] eqn:Happ.
  pose proof (app_sequence_grows _ _ _ _ _ Happ) as Hgrow.
  specialize (IH w1). destruct (serve later w1) as [rs w2]. simpl in *. lia.
Qed.

(** While the counter has not passed 2^53 the answered ids are the assigned
    rowids: above the counter from before, strictly increasing. *)
Lemma created_ids_in_range history : forall w,
  sqlite_sequence (db (snd (serve history w))) <= 2 ^ 53 ->
  Forall (fun j => sqlite_sequence (db w) < j) (created_ids (fst (serve history w))) /\
  StronglySorted Z.lt (created_ids (fst (serve history w))).
Proof.
  induction history as [|[env req] later IH]; intros w; simpl.
  { intros _. split; constructor. }
  destruct (app env req w) as [r w1] eqn:Happ.
  specialize (IH w1). pose proof (serve_sequence_grows later w1) as Hlater.
  destruct (serve later w1) as [rs w2]. simpl in *.
  intros Hbound. destruct (IH Hbound) as [Habove Hsorted].
  pose proof (app_sequence_grows _ _ _ _ _ Happ) as Hgrow.
  assert (Htail : Forall (fun j => sqlite_sequence (db w) < j) (created_ids rs)).
  { eapply Forall_impl; [|exact Habove]. simpl. intros; lia. }
  destruct (created_id r) as [j|] eqn:Hj; [|now split].
  destruct (app_created_above _ _ _ _ _ _ Happ Hj) as (k & -> & Hpos & Hlt & Hseq).
  rewrite js_number_exact by lia.
  split; constructor; auto.
  now rewrite Hseq in Habove.
Qed.

Lemma strictly_increasing_nodup (l : list Z) : StronglySorted Z.lt l -> NoDup l.
Proof.
  induction 1 as [|k l _ IH Hall]; constructor; [|exact IH].
  intros Hin. rewrite Forall_forall in Hall. specialize (Hall k Hin). lia.
Qed.

Lemma js_rows_sorted (l : list Recording) :
  StronglySorted newest_first l -> StronglySorted newest_first (map js_row l).
Proof.
  induction 1 as [|x l _ IH Hx]; simpl; constructor; [exact IH|].
  rewrite Forall_map. exact Hx.
Qed.

(** The rows a run of successful uploads appends, read off the answers. *)
Lemma create_all_rows uploads : forall w rs w',
  create_all uploads w = (rs, w') -> Forall created rs ->
  map id (map js_row (recordings (db w')))
  = map id (map js_row (recordings (db w))) ++ created_ids rs /\
  map createdAt (recordings (db w'))
  = map createdAt (recordings (db w)) ++ timestamps uploads.
Proof.
  induction uploads as [|[env req] later IH]; simpl; intros w rs w' Hrun Hok.
  - injection Hrun as <- <-. simpl. now rewrite !app_nil_r.
  - destruct (post_recordings env req w) as [r w1] eqn:Hpost.
    destruct (create_all later w1) as [rs1 w2] eqn:Hlater.
    injection Hrun as <- <-.
    inversion Hok as [|? ? Hr Hrs]; subst.
    destruct (IH _ _ _ Hlater Hrs) as [Hids Hts].
    destruct (post_recordings_201 _ _ _ _ _ Hpost Hr)
      as (f & k & d & _ & _ & Hins & -> & ->).
    apply insert_recording_inv in Hins as (_ & _ & _ & _ & Hrows).
    simpl in Hids, Hts. rewrite Hrows in Hids, Hts.
    repeat rewrite map_app in Hids. rewrite map_app in Hts.
    simpl in Hids, Hts. rewrite <- app_assoc in Hids, Hts.
    simpl. split; [exact Hids|exact Hts].
Qed.

(* ------------------------------------------------------------------ *)
(** ** The claims *)

(** C1: when the storage upload of a create request answers with an error,
    the handler answers 500 "Failed to upload recording" and the metadata
    table is what it was before the request: no row is inserted. *)
Theorem upload_failure_inserts_no_row env req w f e :
  file req = Some f -> upload_error env = Some e ->
  fst (post_recordings env req w)
  = mkResponse 500 (JsonError "Failed to upload recording") /\
  db (snd (post_recordings env req w)) = db w.
Proof.
  intros Hf He.
  rewrite (post_recordings_upload_failed _ _ _ _ _ Hf He).
  split; reflexivity.
Qed.

(** C2: when a delete request names a stored row and the storage remove
    answers with an error, the handler answers 500 and the metadata table is
    unchanged: the row is still stored and the row count is the same. *)
Theorem remove_failure_keeps_row env p w e :
  present p (db w) -> remove_error env = Some e ->
  fst (delete_recording env p w)
  = mkResponse 500 (JsonError "Failed to delete file from Supabase") /\
  db (snd (delete_recording env p w)) = db w /\
  present p (db (snd (delete_recording env p w))) /\
  List.length (recordings (db (snd (delete_recording env p w))))
  = List.length (recordings (db w)).
Proof.
  intros Hp He.
  destruct (select_by_id_present _ _ Hp) as (r & Hsel & _ & _).
  rewrite (delete_recording_remove_failed _ _ _ _ _ Hsel He). simpl.
  repeat split; auto.
Qed.

(** C3, as amended: when a delete request names a stored row and the storage
    remove succeeds, the handler answers 200, exactly the row with that id
    leaves the table and the rows around it stay as they were; whatever
    requests follow, no stored row carries that rowid again and a lookup of
    it answers 404; and when the id is below 2^53 in magnitude, where
    JavaScript reads rowids exactly, no listing contains it. *)
Theorem delete_removes_exactly_that_row env p w :
  db_wf (db w) -> present p (db w) -> remove_error env = None ->
  exists before r after,
    recordings (db w) = before ++ r :: after /\
    text_to_rowid p = Some (id r) /\
    fst (delete_recording env p w)
    = mkResponse 200 (JsonMessage "Recording deleted successfully") /\
    recordings (db (snd (delete_recording env p w))) = before ++ after /\
    forall history q rows,
      text_to_rowid q = Some (id r) ->
      body (fst (get_recordings
                   (snd (serve history (snd (delete_recording env p w))))))
      = JsonRecordings rows ->
      ~ In (id r)
          (map id
             (recordings
                (db (snd (serve history (snd (delete_recording env p w))))))) /\
      (Z.abs (id r) < 2 ^ 53 -> ~ In (id r) (map id rows)) /\
      fst (get_recording q (snd (serve history (snd (delete_recording env p w)))))
      = mkResponse 404 (JsonError "Recording not found").
Proof.
  intros [Hnodup Hbound] (r & Hin & Hp) He.
  destruct (in_split _ _ Hin) as (before & after & Hrows).
  exists before, r, after.
  rewrite Hrows in Hnodup.
  destruct (unique_key_split _ _ _ Hnodup) as [Hbefore Hafter].
  assert (Hmatch : forall x, id x <> id r -> id_matches p x = false).
  { intros x Hx. unfold id_matches. rewrite Hp. now apply Z.eqb_neq. }
  assert (Hr : id_matches p r = true).
  { unfold id_matches. rewrite Hp. apply Z.eqb_refl. }
  assert (Hsel : select_by_id p (db w) = Some r).
  { unfold select_by_id. rewrite Hrows. apply find_unique; [|exact Hr].
    eapply Forall_impl; [|exact Hbefore]. exact Hmatch. }
  assert (Hleft : recordings (delete_by_id p (db w)) = before ++ after).
  { simpl. rewrite Hrows, filter_app. simpl. rewrite Hr. simpl.
    rewrite !filter_all; [reflexivity| |];
      (eapply Forall_impl; [|eassumption]); intros x Hx; simpl;
      now rewrite (Hmatch x Hx). }
  rewrite (delete_recording_done _ _ _ _ Hsel He). cbn [fst snd].
  split; [exact Hrows|]. split; [exact Hp|]. split; [reflexivity|].
  split; [exact Hleft|].
  intros history q rows Hq Hbody.
  assert (Hretired : retired (id r) (delete_by_id p (db w))).
  { split.
    - simpl. rewrite Forall_forall in Hbound. now apply Hbound.
    - rewrite Hleft, map_app, in_app_iff, !in_map_iff.
      rewrite Forall_forall in Hbefore, Hafter.
      intros [(x & Hx & Hinx)|(x & Hx & Hinx)];
        [now apply (Hbefore x Hinx)|now apply (Hafter x Hinx)]. }
  apply (serve_keeps_retired history (removed r (delete_by_id p (db w)) w))
    in Hretired as [_ Hout].
  split; [exact Hout|]. split.
  - intros Hsmall.
    rewrite get_recordings_eq in Hbody. cbn [fst body] in Hbody.
    injection Hbody as <-.
    rewrite map_map, in_map_iff. intros (x & Hx & Hinx).
    unfold select_all in Hinx. rewrite order_by_in in Hinx.
    cbn [js_row id] in Hx.
    apply js_number_small_result in Hx; [|exact Hsmall].
    apply Hout. rewrite <- Hx. now apply in_map.
  - rewrite get_recording_not_found; [reflexivity|].
    apply select_by_id_absent. intros x Hinx Hqx. apply Hout.
    assert (id x = id r) as <- by congruence. now apply in_map.
Qed.

(** C4: a delete request that names no stored row is answered 404
    "Recording not found"; no storage call is issued and the table is
    untouched: the world after the request is the world before it. *)
Theorem delete_unknown_id_changes_nothing env p w :
  absent p (db w) ->
  fst (delete_recording env p w)
  = mkResponse 404 (JsonError "Recording not found") /\
  storage_calls (snd (delete_recording env p w)) = storage_calls w /\
  db (snd (delete_recording env p w)) = db w.
Proof.
  intros Hp.
  rewrite (delete_recording_not_found env p w (select_by_id_absent _ _ Hp)).
  repeat split.
Qed.

(** C5, as amended: every listing is ordered by [createdAt], newest first,
    and holds exactly the stored rows; after a run of successful uploads into
    an empty table whose creation timestamps strictly increase, the listing
    has one row per upload, in reverse insertion order. *)
Theorem listing_is_newest_first :
  (forall w, exists rows,
      get_recordings w = (mkResponse 200 (JsonRecordings rows), w) /\
      StronglySorted newest_first rows /\
      Permutation (map js_row (recordings (db w))) rows) /\
  (forall uploads w rs w',
      recordings (db w) = [] ->
      create_all uploads w = (rs, w') ->
      Forall created rs ->
      Sorted earlier (timestamps uploads) ->
      exists rows,
        get_recordings w' = (mkResponse 200 (JsonRecordings rows), w') /\
        List.length rows = List.length uploads /\
        rows = rev (map js_row (recordings (db w'))) /\
        map id rows = rev (created_ids rs) /\
        map createdAt rows = rev (timestamps uploads)).
Proof.
  split.
  - intros w. exists (map js_row (select_all (db w))).
    split; [apply get_recordings_eq|].
    split; [apply js_rows_sorted, order_by_sorted|].
    apply Permutation_map, order_by_permutation.
  - intros uploads w rs w' Hempty Hrun Hok Hclock.
    destruct (create_all_rows _ _ _ _ Hrun Hok) as [Hids Hts].
    rewrite Hempty in Hids, Hts. simpl in Hids, Hts.
    assert (Hrev : select_all (db w') = rev (recordings (db w'))).
    { apply order_by_increasing. rewrite Hts.
      apply Sorted_StronglySorted; [|exact Hclock].
      intros x y z. apply earlier_trans. }
    exists (map js_row (select_all (db w'))).
    split; [apply get_recordings_eq|].
    rewrite Hrev, !map_rev, Hids.
    assert (Hstamps : map createdAt (map js_row (recordings (db w')))
                      = timestamps uploads).
    { rewrite map_map. simpl. exact Hts. }
    rewrite Hstamps. repeat split.
    rewrite length_rev, <- (length_map createdAt), Hstamps.
    unfold timestamps. apply length_map.
Qed.

(** C6, as amended: over any history of requests, a rowid the table has
    handed out and that is no longer stored is never stored again; and as
    long as the AUTOINCREMENT counter has not passed 2^53, where the
    JavaScript number [result.lastID] is the rowid, the ids reported by
    successful creates strictly increase: each is greater than all ids
    handed out before it, deleted or not, none is reported twice, and all
    exceed the largest rowid the table held when the history began. *)
Theorem created_ids_strictly_increase history w :
  (forall k, retired k (db w) -> retired k (db (snd (serve history w)))) /\
  (sqlite_sequence (db (snd (serve history w))) <= 2 ^ 53 ->
   StronglySorted Z.lt (created_ids (fst (serve history w))) /\
   NoDup (created_ids (fst (serve history w))) /\
   Forall (fun k => sqlite_sequence (db w) < k)
     (created_ids (fst (serve history w)))).
Proof.
  split; [intros k; apply serve_keeps_retired|].
  intros Hbound.
  destruct (created_ids_in_range history w Hbound) as [Habove Hsorted].
  split; [exact Hsorted|].
  split; [now apply strictly_increasing_nodup|exact Habove].
Qed.

(** C7, as amended: the recording in a 201 answer agrees with the inserted
    row on filename, url and filesize; its id is the row's rowid read as the
    JavaScript number [result.lastID], which is the rowid itself up to 2^53;
    the row's [createdAt] is SQLite's CURRENT_TIMESTAMP, the answer's
    [createdAt] is the handler's own [new Date().toISOString()], read after
    the insert. *)
Theorem created_answer_matches_row env req w r w' :
  post_recordings env req w = (r, w') -> created r ->
  exists answered row,
    body r = JsonUploaded "Recording uploaded successfully" answered /\
    recordings (db w') = recordings (db w) ++ [row] /\
    id answered = js_number (id row) /\
    (id row <= 2 ^ 53 -> id answered = id row) /\
    filename answered = filename row /\
    url answered = url row /\
    filesize answered = filesize row /\
    createdAt row = CURRENT_TIMESTAMP env /\
    createdAt answered = new_Date_toISOString env.
Proof.
  intros Hpost Hr.
  destruct (post_recordings_201 _ _ _ _ _ Hpost Hr)
    as (f & k & d & _ & _ & Hins & -> & ->).
  pose proof (insert_recording_positive _ _ _ _ _ _ _ Hins) as Hpos.
  apply insert_recording_inv in Hins as (_ & _ & _ & _ & Hrows).
  eexists; eexists. split; [reflexivity|].
  split; [exact Hrows|]. cbn [id filename url filesize createdAt].
  split; [reflexivity|].
  split; [intros Hk; apply js_number_exact; lia|].
  repeat split.
Qed.

(** C8, as amended: a request that the CORS layer and the body parser pass
    on, that none of the four API routes takes, and that the frontend layers
    do not answer (no build folder, or neither a static file nor GET/HEAD)
    is answered 404 with the plain text "Route not found"; nothing changes. *)
Theorem unmatched_route_is_not_found env req w :
  cors req = None -> express_json req = None ->
  api_route req = false -> frontend_passes req ->
  app env req w = (mkResponse 404 (Text "Route not found"), w).
Proof.
  intros Hcors Hjson Hroute Hfront.
  unfold app. rewrite Hcors, Hjson.
  assert (Hfall : frontend_and_fallback req = mkResponse 404 (Text "Route not found")).
  { unfold frontend_and_fallback, frontend_passes, not_found in *.
    destruct buildFolder as [folder|]; [|reflexivity].
    destruct Hfront as (-> & Hget & Hhead).
    destruct (method req); congruence. }
  unfold api_route in Hroute.
  destruct (method req), (path req); try discriminate; now rewrite Hfall.
Qed.

(** C9: a create request without a file part is answered 400
    "No file uploaded"; no storage call is issued and no row is created. *)
Theorem create_without_file_is_rejected env req w :
  file req = None ->
  fst (post_recordings env req w) = mkResponse 400 (JsonError "No file uploaded") /\
  storage_calls (snd (post_recordings env req w)) = storage_calls w /\
  db (snd (post_recordings env req w)) = db w.
Proof.
  intros Hf. rewrite (post_recordings_no_file env req w Hf).
  repeat split.
Qed.

(** C10: when the provider publishes an object at an address ending in
    ["/"] and its name, the row a successful create inserts has as filename
    the name the payload was uploaded under, and that name is the trailing
    segment of the stored url: a later delete of the row removes exactly
    that object. *)
Theorem stored_name_is_url_tail env req w r w' base :
  post_recordings env req w = (r, w') -> created r ->
  getPublicUrl "uploads" (uniqueName_at (Date_now env))
  = String.append base (String "/" (uniqueName_at (Date_now env))) ->
  exists f row,
    file req = Some f /\
    recordings (db w') = recordings (db w) ++ [row] /\
    storage_calls w'
    = storage_calls w ++ [Upload "uploads" (filename row) (buffer f) "video/webm"] /\
    Js.pop (Js.split "/" (url row)) = filename row /\
    forall env2 p w2,
      select_by_id p (db w2) = Some row ->
      storage_calls (snd (delete_recording env2 p w2))
      = storage_calls w2 ++ [Remove "uploads" [filename row]].
Proof.
  intros Hpost Hr Hurl.
  destruct (post_recordings_201 _ _ _ _ _ Hpost Hr)
    as (f & k & d & Hf & _ & Hins & -> & ->).
  apply insert_recording_inv in Hins as (_ & _ & _ & _ & Hrows).
  assert (Htail :
    Js.pop (Js.split "/" (getPublicUrl "uploads" (uniqueName_at (Date_now env))))
    = uniqueName_at (Date_now env)).
  { rewrite Hurl. apply pop_split_public_url. }
  exists f. eexists.
  split; [exact Hf|]. split; [exact Hrows|].
  split; [reflexivity|]. split; [exact Htail|].
  intros env2 p w2 Hsel.
  destruct (remove_error env2) as [e|] eqn:He.
  - rewrite (delete_recording_remove_failed _ _ _ _ _ Hsel He).
    cbn [snd removed storage_calls url filename]. now rewrite Htail.
  - rewrite (delete_recording_done _ _ _ _ Hsel He).
    cbn [snd removed storage_calls url filename]. now rewrite Htail.
Qed.

(* ------------------------------------------------------------------ *)
(** ** Further properties of the handlers and of the stack *)

(** Every way a create request can end. *)
Lemma post_recordings_cases env req w :
  (file req = None /\
   post_recordings env req w
   = (mkResponse 400 (JsonError "No file uploaded"), w)) \/
  (exists f, file req = Some f /\
     (upload_error env <> None \/
      insert_recording (uniqueName_at (Date_now env))
        (getPublicUrl "uploads" (uniqueName_at (Date_now env)))
        (size f) (CURRENT_TIMESTAMP env) (db w) = None) /\
     post_recordings env req w
     = (mkResponse 500 (JsonError "Failed to upload recording"), uploaded env f w)) \/
  (exists f k d, file req = Some f /\ upload_error env = None /\
     insert_recording (uniqueName_at (Date_now env))
       (getPublicUrl "uploads" (uniqueName_at (Date_now env)))
       (size f) (CURRENT_TIMESTAMP env) (db w) = Some (k, d) /\
     post_recordings env req w
     = (mkResponse 201
          (JsonUploaded "Recording uploaded successfully"
             {| id := js_number k;
                filename := uniqueName_at (Date_now env);
                url := getPublicUrl "uploads" (uniqueName_at (Date_now env));
                filesize := size f;
                createdAt := new_Date_toISOString env |}),
        {| db := d; storage_calls := storage_calls (uploaded env f w) |})).
Proof.
  destruct (file req) as [f|] eqn:Hf.
  2:{ left. split; [reflexivity|]. now apply post_recordings_no_file. }
  right.
  destruct (upload_error env) as [e|] eqn:He.
  { left. exists f. split; [reflexivity|]. split; [left; discriminate|].
    now apply post_recordings_upload_failed with e. }
  destruct (insert_recording (uniqueName_at (Date_now env))
              (getPublicUrl "uploads" (uniqueName_at (Date_now env)))
              (size f) (CURRENT_TIMESTAMP env) (db w)) as [[k d]|] eqn:Hins.
  - right. exists f, k, d. repeat split; auto.
    now apply post_recordings_created.
  - left. exists f. split; [reflexivity|]. split; [now right|].
    now apply post_recordings_table_full.
Qed.

(** Every way a delete request can end. *)
Lemma delete_recording_cases env p w :
  (select_by_id p (db w) = None /\
   delete_recording env p w
   = (mkResponse 404 (JsonError "Recording not found"), w)) \/
  (exists row, select_by_id p (db w) = Some row /\ remove_error env <> None /\
     delete_recording env p w
     = (mkResponse 500 (JsonError "Failed to delete file from Supabase"),
        removed row (db w) w)) \/
  (exists row, select_by_id p (db w) = Some row /\ remove_error env = None /\
     delete_recording env p w
     = (mkResponse 200 (JsonMessage "Recording deleted successfully"),
        removed row (delete_by_id p (db w)) w)).
Proof.
  destruct (select_by_id p (db w)) as [row|] eqn:Hsel.
  2:{ left. split; [reflexivity|]. now apply delete_recording_not_found. }
  right. destruct (remove_error env) as [e|] eqn:He.
  - left. exists row. split; [reflexivity|]. split; [discriminate|].
    now apply delete_recording_remove_failed with e.
  - right. exists row. repeat split; auto.
    now apply delete_recording_done.
Qed.

(** Which layer answers: a request is either answered without touching the
    world, or handed to the upload handler, or to the delete handler. *)
Lemma app_routes env req w :
  (snd (app env req w) = w /\
   created_id (fst (app env req w)) = None /\
   deleted (fst (app env req w)) = false) \/
  (method req = POST /\ path req = ApiRecordings /\
   cors req = None /\ express_json req = None /\
   app env req w = post_recordings env req w) \/
  (exists p, method req = DELETE /\ path req = ApiRecordingsId p /\
   cors req = None /\ express_json req = None /\
   app env req w = delete_recording env p w).
Proof.
  unfold app.
  destruct (cors req) as [refused|] eqn:Hcors.
  { left. unfold cors in Hcors. destruct (cors_origin (origin req)).
    - destruct (method req); try discriminate. now injection Hcors as <-.
    - now injection Hcors as <-. }
  destruct (express_json req) as [code|]; [now left|].
  assert (Hfront : forall w0 : World,
    snd (frontend_and_fallback req, w0) = w0 /\
    created_id (fst (frontend_and_fallback req, w0)) = None /\
    deleted (fst (frontend_and_fallback req, w0)) = false).
  { intros w0. cbn [fst snd]. split; [reflexivity|].
    unfold frontend_and_fallback.
    destruct buildFolder as [folder|]; [|now split].
    destruct (express_static folder req) as [[code served]|]; [now split|].
    destruct (method req); now split. }
  assert (Hget : forall p,
    snd (get_recording p w) = w /\
    created_id (fst (get_recording p w)) = None /\
    deleted (fst (get_recording p w)) = false).
  { intros p. destruct (select_by_id p (db w)) as [row|] eqn:Hsel.
    - rewrite (get_recording_found _ _ _ Hsel). now split.
    - rewrite (get_recording_not_found _ _ Hsel). now split. }
  destruct (method req) eqn:Hm, (path req) eqn:Hp;
    try (left; apply Hfront); try (left; apply Hget);
    try (left; rewrite get_recordings_eq; now split).
  - right. left. now repeat split.
  - right. right. exists id_param. now repeat split.
Qed.

Lemma max_rowid_below_counter (d : Database) :
  db_wf d -> 0 <= sqlite_sequence d -> max_rowid (recordings d) <= sqlite_sequence d.
Proof.
  intros [_ Hbound] Hseq.
  induction Hbound as [|r t Hr _ IH]; simpl; lia.
Qed.

Lemma next_rowid_is_counter_plus_one (d : Database) :
  db_wf d -> 0 <= sqlite_sequence d < MAX_ROWID ->
  next_rowid d = Some (sqlite_sequence d + 1).
Proof.
  intros Hwf Hseq. unfold next_rowid.
  pose proof (max_rowid_below_counter d Hwf (proj1 Hseq)) as Hmax.
  rewrite Z.max_l by exact Hmax.
  destruct (MAX_ROWID <=? sqlite_sequence d) eqn:E; [|reflexivity].
  apply Z.leb_le in E. lia.
Qed.

Lemma next_rowid_exhausted (d : Database) :
  MAX_ROWID <= sqlite_sequence d -> next_rowid d = None.
Proof.
  intros H. unfold next_rowid.
  destruct (MAX_ROWID <=? _) eqn:E; [reflexivity|].
  apply Z.leb_gt in E. lia.
Qed.

(** Under a unique key the lookup finds the row that carries the key. *)
Lemma select_by_id_unique p d r :
  db_wf d -> In r (recordings d) -> text_to_rowid p = Some (id r) ->
  select_by_id p d = Some r /\
  exists before after,
    recordings d = before ++ r :: after /\
    recordings (delete_by_id p d) = before ++ after.
Proof.
  intros [Hnodup _] Hin Hp.
  destruct (in_split _ _ Hin) as (before & after & Hrows).
  rewrite Hrows in Hnodup.
  destruct (unique_key_split _ _ _ Hnodup) as [Hbefore Hafter].
  assert (Hmatch : forall x, id x <> id r -> id_matches p x = false).
  { intros x Hx. unfold id_matches. rewrite Hp. now apply Z.eqb_neq. }
  assert (Hr : id_matches p r = true).
  { unfold id_matches. rewrite Hp. apply Z.eqb_refl. }
  split.
  - unfold select_by_id. rewrite Hrows. apply find_unique; [|exact Hr].
    eapply Forall_impl; [|exact Hbefore]. exact Hmatch.
  - exists before, after. split; [exact Hrows|].
    simpl. rewrite Hrows, filter_app. simpl. rewrite Hr. simpl.
    rewrite !filter_all; [reflexivity| |];
      (eapply Forall_impl; [|eassumption]); intros x Hx; simpl;
      now rewrite (Hmatch x Hx).
Qed.

(** A row appended with a key above all stored ones is the row its key finds,
    and deleting by that key gives the table back. *)
Lemma appended_row_lookup q t r :
  (forall x, In x t -> id x < id r) -> text_to_rowid q = Some (id r) ->
  forall after,
    Forall (fun x => id r < id x) after ->
    find (id_matches q) (t ++ r :: after) = Some r /\
    filter (fun x => negb (id_matches q x)) (t ++ r :: after) = t ++ after.
Proof.
  intros Hbelow Hq after Hafter.
  assert (Hr : id_matches q r = true).
  { unfold id_matches. rewrite Hq. apply Z.eqb_refl. }
  assert (Ht : Forall (fun x => id_matches q x = false) t).
  { apply Forall_forall. intros x Hx. unfold id_matches. rewrite Hq.
    apply Z.eqb_neq. specialize (Hbelow x Hx). lia. }
  assert (Ha : Forall (fun x => id_matches q x = false) after).
  { eapply Forall_impl; [|exact Hafter]. intros x Hx. unfold id_matches.
    rewrite Hq. apply Z.eqb_neq. simpl in Hx. lia. }
  split; [now apply find_unique|].
  rewrite filter_app. simpl. rewrite Hr. simpl.
  rewrite !filter_all; [reflexivity| |];
    (eapply Forall_impl; [|eassumption]); intros x Hx; simpl in *; now rewrite Hx.
Qed.

Lemma select_after_delete p d : select_by_id p (delete_by_id p d) = None.
Proof.
  unfold select_by_id, delete_by_id. simpl.
  destruct (find _ _) as [r|] eqn:E; [|reflexivity].
  apply find_some in E as [Hin Hm].
  apply filter_In in Hin as [_ Hneg]. rewrite Hm in Hneg. discriminate.
Qed.

(** X1: a create request with a file, when the upload succeeds and the key
    space is not exhausted, is answered 201; it appends one row whose id is
    the AUTOINCREMENT counter plus one and whose filesize is the uploaded
    size, moves the counter to that id, and issues one upload to the bucket
    "uploads" with content type "video/webm".  The answer carries that id as
    JavaScript reads it. *)
Theorem create_appends_next_rowid env req w f :
  db_wf (db w) -> 0 <= sqlite_sequence (db w) < MAX_ROWID ->
  file req = Some f -> upload_error env = None ->
  post_recordings env req w
  = (mkResponse 201
       (JsonUploaded "Recording uploaded successfully"
          {| id := js_number (sqlite_sequence (db w) + 1);
             filename := uniqueName_at (Date_now env);
             url := getPublicUrl "uploads" (uniqueName_at (Date_now env));
             filesize := size f;
             createdAt := new_Date_toISOString env |}),
     {| db :=
          {| recordings :=
               recordings (db w)
               ++ [{| id := sqlite_sequence (db w) + 1;
                      filename := uniqueName_at (Date_now env);
                      url := getPublicUrl "uploads" (uniqueName_at (Date_now env));
                      filesize := size f;
                      createdAt := CURRENT_TIMESTAMP env |}];
             sqlite_sequence := sqlite_sequence (db w) + 1 |};
        storage_calls :=
          storage_calls w
          ++ [Upload "uploads" (uniqueName_at (Date_now env)) (buffer f)
                "video/webm"] |}).
Proof.
  intros Hwf Hseq Hf He.
  apply post_recordings_created; auto.
  unfold insert_recording.
  now rewrite (next_rowid_is_counter_plus_one _ Hwf Hseq).
Qed.

(** X2: when the upload succeeded but the INSERT fails because the
    AUTOINCREMENT key space is exhausted, the handler answers 500 and inserts
    no row, while the upload call has been issued: the object stays in the
    bucket without a metadata row. *)
Theorem exhausted_keys_leave_an_orphan_object env req w f :
  MAX_ROWID <= sqlite_sequence (db w) ->
  file req = Some f -> upload_error env = None ->
  fst (post_recordings env req w)
  = mkResponse 500 (JsonError "Failed to upload recording") /\
  db (snd (post_recordings env req w)) = db w /\
  storage_calls (snd (post_recordings env req w))
  = storage_calls w
    ++ [Upload "uploads" (uniqueName_at (Date_now env)) (buffer f) "video/webm"].
Proof.
  intros Hfull Hf He.
  rewrite (post_recordings_table_full env req w f Hf He).
  - repeat split.
  - unfold insert_recording. now rewrite next_rowid_exhausted.
Qed.

(** X3: a create request either is answered 201 and appends exactly one row,
    whose rowid is the new value of the counter and, read as a JavaScript
    number, the id in the answer, or is answered 400 or 500 and leaves the
    table as it was. *)
Theorem create_is_all_or_nothing env req w :
  (status (fst (post_recordings env req w)) = 201 /\
   exists row,
     recordings (db (snd (post_recordings env req w)))
     = recordings (db w) ++ [row] /\
     created_id (fst (post_recordings env req w)) = Some (js_number (id row)) /\
     sqlite_sequence (db (snd (post_recordings env req w))) = id row) \/
  ((status (fst (post_recordings env req w)) = 400 \/
    status (fst (post_recordings env req w)) = 500) /\
   db (snd (post_recordings env req w)) = db w).
Proof.
  destruct (post_recordings_cases env req w)
    as [[_ ->] | [(f & _ & _ & ->) | (f & k & d & _ & _ & Hins & ->)]].
  - right. split; [now left|reflexivity].
  - right. split; [now right|reflexivity].
  - left. split; [reflexivity|].
    apply insert_recording_inv in Hins as (_ & _ & _ & Hseq & Hrows).
    eexists. cbn [fst snd db]. split; [exact Hrows|].
    split; [reflexivity|exact Hseq].
Qed.

(** X4: a lookup by an id that is stored is answered with a 302 redirect to
    the url of the row carrying that id, percent-encoded as [res.redirect]
    does, and changes nothing. *)
Theorem get_recording_redirects_to_stored_url p w r :
  db_wf (db w) -> In r (recordings (db w)) -> text_to_rowid p = Some (id r) ->
  get_recording p w = (mkResponse 302 (Redirect (encodeUrl (url r))), w).
Proof.
  intros Hwf Hin Hp.
  destruct (select_by_id_unique p (db w) r Hwf Hin Hp) as [Hsel _].
  now apply get_recording_found.
Qed.

(** X5: a lookup by an id parameter that names no stored row, be it an
    unknown number or text that is no number at all, is answered 404
    "Recording not found" and changes nothing. *)
Theorem get_recording_unknown_id_is_not_found p w :
  text_to_rowid p = None \/ absent p (db w) ->
  get_recording p w = (mkResponse 404 (JsonError "Recording not found"), w).
Proof.
  intros H. apply get_recording_not_found, select_by_id_absent.
  destruct H as [Hnone|Habs]; [|exact Habs].
  intros r _. rewrite Hnone. discriminate.
Qed.

Lemma includes_false (a : list string) (x : string) :
  ~ In x a -> Js.includes a x = false.
Proof.
  intros H. unfold Js.includes.
  destruct (existsb (String.eqb x) a) eqn:E; [|reflexivity].
  apply existsb_exists in E as (y & Hy & Hxy).
  apply String.eqb_eq in Hxy. subst y. contradiction.
Qed.

(** X6: the only requests that can change anything are an upload that
    carries a file and a delete that names a stored row; every other request
    (any GET, HEAD or OPTIONS, any other path, any refused origin) leaves the
    table and the storage bucket as they were. *)
Theorem only_upload_and_delete_change_the_world env req w :
  snd (app env req w) <> w ->
  (method req = POST /\ path req = ApiRecordings /\ file req <> None) \/
  (method req = DELETE /\
   exists p, path req = ApiRecordingsId p /\ select_by_id p (db w) <> None).
Proof.
  intros Hchanged.
  destruct (app_routes env req w)
    as [[Hsame _] | [(Hm & Hp & _ & _ & Happ) | (p & Hm & Hp & _ & _ & Happ)]].
  - contradiction.
  - left. split; [exact Hm|]. split; [exact Hp|].
    intros Hfile. apply Hchanged.
    now rewrite Happ, post_recordings_no_file.
  - right. split; [exact Hm|]. exists p. split; [exact Hp|].
    intros Hsel. apply Hchanged.
    now rewrite Happ, delete_recording_not_found.
Qed.

(** X7: a request whose Origin header is set, non-empty and outside the
    allow-list is stopped by the CORS layer whatever its method and path: it
    reaches no handler and changes nothing. *)
Theorem refused_origin_reaches_no_handler env req w s :
  origin req = Some s -> s <> EmptyString -> ~ In s allowedOrigins ->
  app env req w = (mkResponse 500 ErrorPage, w).
Proof.
  intros Ho Hs Hout. unfold app, cors, cors_origin. rewrite Ho.
  rewrite (includes_false _ _ Hout).
  destruct s; [contradiction|reflexivity].
Qed.

(** X8: after a delete whose storage removal succeeded, a second delete of
    the same id is answered 404 and changes nothing. *)
Theorem second_delete_is_not_found env env2 p w :
  remove_error env = None ->
  delete_recording env2 p (snd (delete_recording env p w))
  = (mkResponse 404 (JsonError "Recording not found"),
     snd (delete_recording env p w)).
Proof.
  intros He.
  destruct (delete_recording_cases env p w)
    as [[Hsel ->] | [(row & _ & Hfail & _) | (row & _ & _ & ->)]].
  - now apply delete_recording_not_found.
  - contradiction.
  - apply delete_recording_not_found. apply select_after_delete.
Qed.

(** X9: a delete that failed on the storage side can be retried: the row is
    still found, the same object name is derived again, and once the removal
    succeeds the row is gone. *)
Theorem failed_delete_can_be_retried env env2 p w e :
  present p (db w) -> remove_error env = Some e -> remove_error env2 = None ->
  exists r,
    select_by_id p (db w) = Some r /\
    fst (delete_recording env2 p (snd (delete_recording env p w)))
    = mkResponse 200 (JsonMessage "Recording deleted successfully") /\
    db (snd (delete_recording env2 p (snd (delete_recording env p w))))
    = delete_by_id p (db w) /\
    absent p (db (snd (delete_recording env2 p (snd (delete_recording env p w))))) /\
    storage_calls (snd (delete_recording env2 p (snd (delete_recording env p w))))
    = storage_calls w
      ++ [Remove "uploads" [fileName_of (url r)];
          Remove "uploads" [fileName_of (url r)]].
Proof.
  intros Hp He He2.
  destruct (select_by_id_present _ _ Hp) as (r & Hsel & _ & _).
  exists r. split; [exact Hsel|].
  rewrite (delete_recording_remove_failed _ _ _ _ _ Hsel He). cbn [snd].
  assert (Hsel' : select_by_id p (db (removed r (db w) w)) = Some r) by exact Hsel.
  rewrite (delete_recording_done _ _ _ _ Hsel' He2). cbn [fst snd].
  split; [reflexivity|]. split; [reflexivity|].
  split.
  - intros x Hx Hpx. cbn [removed db] in Hx.
    simpl in Hx. apply filter_In in Hx as [_ Hneg].
    unfold id_matches in Hneg. rewrite Hpx, Z.eqb_refl in Hneg. discriminate.
  - unfold removed, fileName_of. cbn [storage_calls].
    now rewrite <- app_assoc.
Qed.

(** X10: an id below 2^53 that a successful create reports finds the
    recording again: a lookup of that id right after the create redirects to
    the public url the create answered with, percent-encoded as
    [res.redirect] does. *)
Theorem created_recording_can_be_fetched env req w q k :
  created_id (fst (post_recordings env req w)) = Some k ->
  Z.abs k < 2 ^ 53 ->
  text_to_rowid q = Some k ->
  get_recording q (snd (post_recordings env req w))
  = (mkResponse 302
       (Redirect
          (encodeUrl (getPublicUrl "uploads" (uniqueName_at (Date_now env))))),
     snd (post_recordings env req w)).
Proof.
  intros Hk Hsmall Hq.
  destruct (post_recordings_cases env req w)
    as [[_ Heq] | [(f & _ & _ & Heq) | (f & k' & d & _ & _ & Hins & Heq)]];
    rewrite Heq in *; try discriminate.
  cbn [fst snd] in *. injection Hk as Hk.
  apply js_number_small_result in Hk; [|exact Hsmall]. subst k'.
  apply insert_recording_inv in Hins as (_ & Hbelow & _ & _ & Hrows).
  pose (row := mkRecording k (uniqueName_at (Date_now env))
                 (getPublicUrl "uploads" (uniqueName_at (Date_now env)))
                 (size f) (CURRENT_TIMESTAMP env)).
  apply (get_recording_found q _ row).
  unfold select_by_id. cbn [db]. rewrite Hrows.
  apply (appended_row_lookup q (recordings (db w)) row Hbelow Hq []
           (Forall_nil _)).
Qed.

(** X11: deleting the recording a create just made, by the id the create
    reported when that id is below 2^53, gives the table its rows back, in
    the same order; only the AUTOINCREMENT counter keeps the used id, which
    is above the counter from before. *)
Theorem create_then_delete_restores_the_rows env env2 req w q k :
  created_id (fst (post_recordings env req w)) = Some k ->
  Z.abs k < 2 ^ 53 ->
  text_to_rowid q = Some k -> remove_error env2 = None ->
  fst (delete_recording env2 q (snd (post_recordings env req w)))
  = mkResponse 200 (JsonMessage "Recording deleted successfully") /\
  recordings (db (snd (delete_recording env2 q (snd (post_recordings env req w)))))
  = recordings (db w) /\
  sqlite_sequence
    (db (snd (delete_recording env2 q (snd (post_recordings env req w))))) = k /\
  sqlite_sequence (db w) < k.
Proof.
  intros Hk Hsmall Hq He2.
  destruct (post_recordings_cases env req w)
    as [[_ Heq] | [(f & _ & _ & Heq) | (f & k' & d & _ & _ & Hins & Heq)]];
    rewrite Heq in *; try discriminate.
  cbn [fst snd] in *. injection Hk as Hk.
  apply js_number_small_result in Hk; [|exact Hsmall]. subst k'.
  apply insert_recording_inv in Hins as (Hlt & Hbelow & _ & Hseq & Hrows).
  pose (row := mkRecording k (uniqueName_at (Date_now env))
                 (getPublicUrl "uploads" (uniqueName_at (Date_now env)))
                 (size f) (CURRENT_TIMESTAMP env)).
  destruct (appended_row_lookup q (recordings (db w)) row Hbelow Hq []
              (Forall_nil _)) as [Hfind Hfilter].
  rewrite (delete_recording_done env2 q _ row); [|unfold select_by_id; cbn [db];
    rewrite Hrows; exact Hfind|exact He2].
  cbn [fst snd removed db]. split; [reflexivity|].
  split; [|split; [exact Hseq|exact Hlt]].
  simpl. rewrite Hrows. fold row. rewrite Hfilter. apply app_nil_r.
Qed.

Lemma string_length_append (s t : string) :
  String.length (String.append s t) = (String.length s + String.length t)%nat.
Proof.
  induction s as [|c s IH]; simpl; [reflexivity|]. now rewrite IH.
Qed.

Lemma append_cancel_l (p s t : string) :
  String.append p s = String.append p t -> s = t.
Proof.
  induction p as [|c p IH]; simpl; [auto|].
  intros H. injection H as H. auto.
Qed.

Lemma append_cancel_r (suffix s t : string) :
  String.append s suffix = String.append t suffix -> s = t.
Proof.
  revert t. induction s as [|c s IH]; intros [|c' t] H; simpl in H.
  - reflexivity.
  - apply (f_equal String.length) in H. simpl in H.
    rewrite string_length_append in H. lia.
  - apply (f_equal String.length) in H. simpl in H.
    rewrite string_length_append in H. lia.
  - injection H as -> H. f_equal. now apply IH.
Qed.

Lemma to_int_printable (n : Z) :
  Z.to_int n <> Decimal.Pos Decimal.Nil /\ Z.to_int n <> Decimal.Neg Decimal.Nil.
Proof.
  destruct n as [|p|p]; simpl; split; try discriminate;
    intros H; injection H as H;
    now apply DecimalPos.Unsigned.to_uint_nonnil in H.
Qed.

(** Printing a number and reading the digits back gives the number. *)
Lemma number_toString_injective (a b : Z) :
  Js.number_toString a = Js.number_toString b -> a = b.
Proof.
  unfold Js.number_toString. intros H.
  apply (f_equal NilZero.int_of_string) in H.
  destruct (to_int_printable a) as [Ha1 Ha2].
  destruct (to_int_printable b) as [Hb1 Hb2].
  rewrite !NilZero.isi in H by assumption.
  injection H as H. now apply DecimalZ.to_int_inj.
Qed.

(** X12: uploads made at different instants get different object names;
    the name depends on nothing but the millisecond of the request. *)
Theorem distinct_instants_give_distinct_names (a b : Z) :
  a <> b -> uniqueName_at a <> uniqueName_at b.
Proof.
  intros Hab H. apply Hab. unfold uniqueName_at in H.
  apply append_cancel_l, append_cancel_r in H.
  now apply number_toString_injective.
Qed.

(** X13: two successful uploads made in the same millisecond get two rows
    with different ids and the same filename and url, both uploaded under
    that one object name; deleting the first row removes the object the
    second row still points to, and the second row stays. *)
Theorem same_instant_uploads_share_one_object envA envB reqA reqB w :
  Date_now envA = Date_now envB ->
  created (fst (post_recordings envA reqA w)) ->
  created (fst (post_recordings envB reqB (snd (post_recordings envA reqA w)))) ->
  exists rowA rowB fA fB,
    recordings
      (db (snd (post_recordings envB reqB (snd (post_recordings envA reqA w)))))
    = recordings (db w) ++ [rowA; rowB] /\
    id rowA < id rowB /\
    filename rowA = filename rowB /\
    url rowA = url rowB /\
    storage_calls
      (snd (post_recordings envB reqB (snd (post_recordings envA reqA w))))
    = storage_calls w
      ++ [Upload "uploads" (filename rowA) (buffer fA) "video/webm";
          Upload "uploads" (filename rowA) (buffer fB) "video/webm"] /\
    forall env3 q,
      text_to_rowid q = Some (id rowA) -> remove_error env3 = None ->
      recordings
        (db (snd (delete_recording env3 q
                    (snd (post_recordings envB reqB
                            (snd (post_recordings envA reqA w)))))))
      = recordings (db w) ++ [rowB] /\
      storage_calls
        (snd (delete_recording env3 q
                (snd (post_recordings envB reqB
                        (snd (post_recordings envA reqA w))))))
      = storage_calls
          (snd (post_recordings envB reqB (snd (post_recordings envA reqA w))))
        ++ [Remove "uploads" [fileName_of (url rowB)]].
Proof.
  intros Hsame HA HB.
  destruct (post_recordings_201 envA reqA w _ _ (surjective_pairing _) HA)
    as (fA & kA & dA & _ & _ & HinsA & _ & HwA).
  rewrite HwA in HB |- *.
  destruct (post_recordings_201 envB reqB _ _ _ (surjective_pairing _) HB)
    as (fB & kB & dB & _ & _ & HinsB & _ & HwB).
  rewrite HwB. cbn [db storage_calls uploaded] in *.
  apply insert_recording_inv in HinsA as (_ & HbelowA & _ & HseqA & HrowsA).
  apply insert_recording_inv in HinsB as (HltB & _ & _ & _ & HrowsB).
  rewrite HrowsA, <- app_assoc in HrowsB. simpl in HrowsB.
  rewrite HseqA in HltB. rewrite <- Hsame in *.
  eexists; eexists; exists fA, fB.
  split; [exact HrowsB|]. cbn [id filename url].
  split; [exact HltB|]. split; [reflexivity|]. split; [reflexivity|].
  split; [now rewrite <- app_assoc|].
  intros env3 q Hq He3.
  match type of HrowsB with
  | _ = _ ++ [?a; ?b] =>
      destruct (appended_row_lookup q (recordings (db w)) a HbelowA Hq [b])
        as [Hfind Hfilter]; [repeat constructor; exact HltB|];
      rewrite (delete_recording_done env3 q _ a);
        [|unfold select_by_id; cbn [db]; rewrite HrowsB; exact Hfind|exact He3]
  end.
  cbn [snd removed db storage_calls url]. split; [|reflexivity].
  simpl. rewrite HrowsB. exact Hfilter.
Qed.

(** The pieces of a split: either the string has no separator and is its
    only piece, or the last piece follows the last separator. *)
Lemma split_last_piece (sep : ascii) (s : string) :
  (Js.split sep s = [s] /\ Js.occurs sep s = false) \/
  (exists first others base,
      Js.split sep s = first :: others /\ others <> [] /\
      s = String.append base (String sep (Js.pop others)) /\
      Js.occurs sep (Js.pop others) = false).
Proof.
  induction s as [|c rest IH]; simpl.
  - now left.
  - destruct IH as [[Hone Hnone] | (first & others & base & Hsplit & Hne & Hs & Hnone)].
    + rewrite Hone, Hnone. destruct (Ascii.eqb c sep) eqn:Hc.
      * apply Ascii.eqb_eq in Hc. subst c. right.
        exists EmptyString, [rest], EmptyString.
        split; [reflexivity|]. split; [discriminate|].
        split; [reflexivity|exact Hnone].
      * left. split; reflexivity.
    + rewrite Hsplit. destruct (Ascii.eqb c sep) eqn:Hc.
      * apply Ascii.eqb_eq in Hc. subst c. right.
        exists EmptyString, (first :: others), (String sep base).
        split; [reflexivity|]. split; [discriminate|].
        assert (Hpop : Js.pop (first :: others) = Js.pop others)
          by apply (pop_app [first] others Hne).
        rewrite Hpop.
        split; [simpl; now rewrite <- Hs|exact Hnone].
      * right. exists (String c first), others, (String c base).
        split; [reflexivity|]. split; [exact Hne|].
        split; [simpl; now rewrite <- Hs|exact Hnone].
Qed.

(** X14: the object name a delete derives from a stored url is the part of
    the url after its last slash: it contains no slash, and the url is either
    that name alone or some prefix, a slash, and that name. *)
Theorem fileName_of_is_the_part_after_the_last_slash (address : string) :
  Js.occurs "/" (fileName_of address) = false /\
  (address = fileName_of address \/
   exists base, address = String.append base (String "/" (fileName_of address))).
Proof.
  unfold fileName_of.
  destruct (split_last_piece "/" address)
    as [[Hone Hnone] | (first & others & base & Hsplit & Hne & Hs & Hnone)].
  - rewrite Hone. split; [exact Hnone|now left].
  - assert (Hpop : Js.pop (first :: others) = Js.pop others)
      by apply (pop_app [first] others Hne).
    rewrite Hsplit, Hpop.
    split; [exact Hnone|]. right. now exists base.
Qed.

(** X15: a request appends at most one call to the storage log and never
    rewrites earlier ones; an upload call is issued only for a POST that
    carries a file, under the name made from the request's instant; a remove
    call only for a DELETE whose id finds a row, and it names exactly one
    object, derived from that row's url. *)
Theorem storage_calls_are_appended_one_at_most env req w :
  exists extra,
    storage_calls (snd (app env req w)) = storage_calls w ++ extra /\
    (extra = [] \/
     (exists f,
         method req = POST /\ file req = Some f /\
         extra = [Upload "uploads" (uniqueName_at (Date_now env)) (buffer f)
                    "video/webm"]) \/
     (exists p r,
         method req = DELETE /\ path req = ApiRecordingsId p /\
         select_by_id p (db w) = Some r /\
         extra = [Remove "uploads" [fileName_of (url r)]])).
Proof.
  destruct (app_routes env req w)
    as [[Hsame _] | [(Hm & Hp & _ & _ & Happ) | (p & Hm & Hp & _ & _ & Happ)]].
  - exists []. rewrite Hsame, app_nil_r. auto.
  - rewrite Happ.
    destruct (post_recordings_cases env req w)
      as [[_ ->] | [(f & Hf & _ & ->) | (f & k & d & Hf & _ & _ & ->)]].
    + exists []. rewrite app_nil_r. auto.
    + eexists. split; [reflexivity|]. right. left. now exists f.
    + eexists. split; [reflexivity|]. right. left. now exists f.
  - rewrite Happ.
    destruct (delete_recording_cases env p w)
      as [[_ ->] | [(row & Hsel & _ & ->) | (row & Hsel & _ & ->)]].
    + exists []. rewrite app_nil_r. auto.
    + eexists. split; [reflexivity|]. right. right. now exists p, row.
    + eexists. split; [reflexivity|]. right. right. now exists p, row.
Qed.

Lemma uploaded_row_later (calls more : list StorageCall) (r : Recording) :
  uploaded_row calls r -> uploaded_row (calls ++ more) r.
Proof.
  intros (Hname & Hurl & payload & Hin).
  split; [exact Hname|]. split; [exact Hurl|].
  exists payload. apply in_or_app. now left.
Qed.

Lemma app_keeps_uploaded_rows env req w :
  Forall (uploaded_row (storage_calls w)) (recordings (db w)) ->
  Forall (uploaded_row (storage_calls (snd (app env req w))))
    (recordings (db (snd (app env req w)))).
Proof.
  intros Hinv.
  assert (Hlater : forall more,
    Forall (uploaded_row (storage_calls w ++ more)) (recordings (db w))).
  { intros more. eapply Forall_impl; [|exact Hinv].
    intros r. apply uploaded_row_later. }
  destruct (app_routes env req w)
    as [[Hsame _] | [(_ & _ & _ & _ & Happ) | (p & _ & _ & _ & _ & Happ)]].
  - now rewrite Hsame.
  - rewrite Happ.
    destruct (post_recordings_cases env req w)
      as [[_ ->] | [(f & _ & _ & ->) | (f & k & d & _ & _ & Hins & ->)]].
    + exact Hinv.
    + apply Hlater.
    + apply insert_recording_inv in Hins as (_ & _ & _ & _ & Hrows).
      cbn [snd db storage_calls uploaded]. rewrite Hrows.
      apply Forall_app. split; [apply Hlater|].
      constructor; [|constructor].
      split; [now exists (Date_now env)|]. split; [reflexivity|].
      exists (buffer f). apply in_or_app. right. now left.
  - rewrite Happ.
    destruct (delete_recording_cases env p w)
      as [[_ ->] | [(row & _ & _ & ->) | (row & _ & _ & ->)]].
    + exact Hinv.
    + apply Hlater.
    + cbn [snd db storage_calls removed]. simpl.
      apply Forall_forall. intros x Hx. apply filter_In in Hx as [Hx _].
      specialize (Hlater [Remove "uploads" [Js.pop (Js.split "/" (url row))]]).
      rewrite Forall_forall in Hlater. now apply Hlater.
Qed.

Lemma serve_keeps_uploaded_rows history : forall w,
  Forall (uploaded_row (storage_calls w)) (recordings (db w)) ->
  Forall (uploaded_row (storage_calls (snd (serve history w))))
    (recordings (db (snd (serve history w)))).
Proof.
  induction history as [|[env req] later IH]; intros w Hw; [exact Hw|].
  simpl. pose proof (app_keeps_uploaded_rows env req w Hw) as Hstep.
  destruct (app env req w) as [r w1]. specialize (IH w1 Hstep).
  destruct (serve later w1) as [rs w2]. exact IH.
Qed.

(** X16: whatever requests were served since the database was created, every
    stored row is one the upload handler wrote: its filename is
    "recording-<ms>.webm" for some instant, its url is the provider's public
    address of that filename, and an upload call for that filename in the
    bucket "uploads" is on record. *)
Theorem stored_rows_come_from_uploads history calls :
  Forall
    (uploaded_row
       (storage_calls
          (snd (serve history {| db := empty_db; storage_calls := calls |}))))
    (recordings
       (db (snd (serve history {| db := empty_db; storage_calls := calls |})))).
Proof.
  apply serve_keeps_uploaded_rows. constructor.
Qed.

(** X17: with a provider that publishes an object at an address ending in a
    slash and the object's name, in every state reached from an empty
    database a delete that finds a row asks the bucket to remove exactly the
    object that was uploaded for a row of that filename. *)
Theorem reachable_delete_removes_the_uploaded_object history calls env p r base :
  (forall now,
      getPublicUrl "uploads" (uniqueName_at now)
      = String.append base (String "/" (uniqueName_at now))) ->
  select_by_id p
    (db (snd (serve history {| db := empty_db; storage_calls := calls |})))
  = Some r ->
  storage_calls
    (snd (delete_recording env p
            (snd (serve history {| db := empty_db; storage_calls := calls |}))))
  = storage_calls (snd (serve history {| db := empty_db; storage_calls := calls |}))
    ++ [Remove "uploads" [filename r]] /\
  exists payload,
    In (Upload "uploads" (filename r) payload "video/webm")
      (storage_calls
         (snd (serve history {| db := empty_db; storage_calls := calls |}))).
Proof.
  intros Hscheme Hsel.
  pose proof (serve_keeps_uploaded_rows history
                {| db := empty_db; storage_calls := calls |} (Forall_nil _)) as Hinv.
  set (W := snd (serve history {| db := empty_db; storage_calls := calls |})) in *.
  assert (Hin : In r (recordings (db W))).
  { unfold select_by_id in Hsel. now apply find_some in Hsel. }
  rewrite Forall_forall in Hinv.
  destruct (Hinv r Hin) as ((now & Hname) & Hurl & Hup).
  assert (Htail : Js.pop (Js.split "/" (url r)) = filename r).
  { rewrite Hurl, Hname, Hscheme. apply pop_split_public_url. }
  split; [|exact Hup].
  destruct (remove_error env) as [e|] eqn:He.
  - rewrite (delete_recording_remove_failed _ _ _ _ _ Hsel He).
    cbn [snd removed storage_calls]. now rewrite Htail.
  - rewrite (delete_recording_done _ _ _ _ Hsel He).
    cbn [snd removed storage_calls]. now rewrite Htail.
Qed.

Lemma app_row_count env req w :
  db_wf (db w) ->
  (List.length (recordings (db (snd (app env req w))))
   + (if deleted (fst (app env req w)) then 1 else 0)
   = List.length (recordings (db w))
     + (match created_id (fst (app env req w)) with Some _ => 1 | None => 0 end))%nat.
Proof.
  intros Hwf.
  destruct (app_routes env req w)
    as [(Hsame & Hc & Hd) | [(_ & _ & _ & _ & Happ) | (p & _ & _ & _ & _ & Happ)]].
  - now rewrite Hsame, Hc, Hd.
  - rewrite Happ.
    destruct (post_recordings_cases env req w)
      as [[_ ->] | [(f & _ & _ & ->) | (f & k & d & _ & _ & Hins & ->)]];
      try reflexivity.
    apply insert_recording_inv in Hins as (_ & _ & _ & _ & Hrows).
    cbn [fst snd db]. rewrite Hrows, length_app. simpl. lia.
  - rewrite Happ.
    destruct (delete_recording_cases env p w)
      as [[_ ->] | [(row & _ & _ & ->) | (row & Hsel & _ & ->)]];
      try reflexivity.
    pose proof Hsel as Hfound. unfold select_by_id in Hfound.
    apply find_some in Hfound as [Hin Hm].
    assert (Hp : text_to_rowid p = Some (id row)).
    { unfold id_matches in Hm. destruct (text_to_rowid p); [|discriminate].
      apply Z.eqb_eq in Hm. now rewrite Hm. }
    destruct (select_by_id_unique p (db w) row Hwf Hin Hp)
      as (_ & before & after & Hrows & Hleft).
    cbn [fst snd db removed]. rewrite Hleft, Hrows, !length_app. simpl. lia.
Qed.

(** X18: starting from a table with a unique key, after any history of
    requests the number of stored rows is the number before, plus the number
    of 201 answers, minus the number of "Recording deleted successfully"
    answers: every 201 stands for one row more and every 200 of a delete for
    one row less, and nothing else changes the count. *)
Theorem row_count_follows_the_answers history : forall w,
  db_wf (db w) ->
  (List.length (recordings (db (snd (serve history w))))
   + List.length (filter deleted (fst (serve history w)))
   = List.length (recordings (db w))
     + List.length (created_ids (fst (serve history w))))%nat.
Proof.
  induction history as [|[env req] later IH]; intros w Hwf; [reflexivity|].
  simpl. pose proof (app_row_count env req w Hwf) as Hstep.
  destruct (app env req w) as [r w1] eqn:Happ.
  specialize (IH w1 (app_keeps_wf _ _ _ _ _ Happ Hwf)).
  destruct (serve later w1) as [rs w2]. cbn [fst snd] in *.
  cbn [filter created_ids].
  destruct (deleted r), (created_id r); cbn [List.length] in *; lia.
Qed.

Lemma strictly_sorted_filter (f : Recording -> bool) (l : list Recording) :
  StronglySorted Z.lt (map id l) -> StronglySorted Z.lt (map id (filter f l)).
Proof.
  induction l as [|x l IH]; simpl; intros H; [constructor|].
  apply StronglySorted_inv in H as [Hl Hx].
  destruct (f x); simpl; [|now apply IH].
  constructor; [now apply IH|].
  rewrite Forall_map in *. apply Forall_forall. intros y Hy.
  apply filter_In in Hy as [Hy _]. rewrite Forall_forall in Hx. now apply Hx.
Qed.

Lemma strictly_sorted_snoc (l : list Z) (k : Z) :
  StronglySorted Z.lt l -> Forall (fun x => x < k) l ->
  StronglySorted Z.lt (l ++ [k]).
Proof.
  induction 1 as [|x l Hl IH Hx]; simpl; intros Hk.
  - repeat constructor.
  - inversion Hk as [|? ? Hxk Hlk]; subst.
    constructor; [now apply IH|].
    apply Forall_app. split; [exact Hx|]. now repeat constructor.
Qed.

Lemma app_keeps_rowids_ascending env req w :
  rowids_ascending (db w) -> rowids_ascending (db (snd (app env req w))).
Proof.
  intros (Hsorted & Hrange & Hseq).
  destruct (app env req w) as [r w1] eqn:Happ. cbn [snd].
  apply app_effect in Happ
    as [[_ [-> | [p ->]]] | (k & ? & ? & ? & _ & Hins)].
  - now repeat split.
  - split; [now apply strictly_sorted_filter|]. split; [|exact Hseq].
    apply Forall_forall. intros x Hx. simpl in Hx.
    apply filter_In in Hx as [Hx _].
    rewrite Forall_forall in Hrange. now apply Hrange.
  - apply insert_recording_inv in Hins as (Hlt & Hbelow & Hmax & Hseq' & Hrows).
    rewrite Forall_forall in Hrange.
    split; [|split]; rewrite ?Hrows, ?Hseq'.
    + rewrite map_app. simpl. apply strictly_sorted_snoc; [exact Hsorted|].
      rewrite Forall_map. apply Forall_forall. exact Hbelow.
    + apply Forall_app. split.
      * apply Forall_forall. intros y Hy. specialize (Hrange y Hy). lia.
      * repeat constructor; simpl; lia.
    + lia.
Qed.

(** X19: whatever requests were served since the database was created, the
    stored rows are in ascending id order (insertion order is id order), every
    id lies between 1 and the AUTOINCREMENT counter, and the counter never
    passes the largest 64-bit rowid. *)
Theorem rowids_ascend_from_an_empty_database history : forall calls,
  rowids_ascending
    (db (snd (serve history {| db := empty_db; storage_calls := calls |}))).
Proof.
  assert (Hgen : forall w, rowids_ascending (db w) ->
                           rowids_ascending (db (snd (serve history w)))).
  { induction history as [|[env req] later IH]; intros w Hw; [exact Hw|].
    simpl. pose proof (app_keeps_rowids_ascending env req w Hw) as Hstep.
    destruct (app env req w) as [r w1]. specialize (IH w1 Hstep).
    destruct (serve later w1) as [rs w2]. exact IH. }
  intros calls. apply Hgen. split; [constructor|]. split; [constructor|].
  unfold MAX_ROWID. simpl. lia.
Qed.

(** X21: the frontend build is looked for once, [dist] before [build].  For a
    GET or HEAD that the CORS layer and the body parser pass on, that no API
    route takes and that names no static file: with [dist] present the answer
    is [dist]'s index.html, also when [build] exists; with only [build]
    present it is [build]'s index.html; with neither it is the 404 text.  The
    world is never changed. *)
Theorem frontend_build_answers_unmatched_get env req w existsSync frontendDir :
  buildFolder = choose_buildFolder existsSync frontendDir ->
  cors req = None -> express_json req = None -> api_route req = false ->
  method req = GET \/ method req = HEAD ->
  (existsSync (path_join frontendDir "dist") = true ->
   express_static (path_join frontendDir "dist") req = None ->
   app env req w
   = (mkResponse 200
        (SendFile (path_join (path_join frontendDir "dist") "index.html")), w)) /\
  (existsSync (path_join frontendDir "dist") = false ->
   existsSync (path_join frontendDir "build") = true ->
   express_static (path_join frontendDir "build") req = None ->
   app env req w
   = (mkResponse 200
        (SendFile (path_join (path_join frontendDir "build") "index.html")), w)) /\
  (existsSync (path_join frontendDir "dist") = false ->
   existsSync (path_join frontendDir "build") = false ->
   app env req w = (mkResponse 404 (Text "Route not found"), w)).
Proof.
  intros Hfolder Hcors Hjson Hroute Hmethod.
  assert (Happ : app env req w = (frontend_and_fallback req, w)).
  { unfold app. rewrite Hcors, Hjson. unfold api_route in Hroute.
    destruct (method req), (path req); try discriminate; reflexivity. }
  rewrite Happ. unfold frontend_and_fallback, choose_buildFolder in *.
  rewrite Hfolder.
  split; [|split].
  - intros Hdist Hstatic. rewrite Hdist, Hstatic.
    destruct Hmethod as [-> | ->]; reflexivity.
  - intros Hdist Hbuild Hstatic. rewrite Hdist, Hbuild, Hstatic.
    destruct Hmethod as [-> | ->]; reflexivity.
  - intros Hdist Hbuild. now rewrite Hdist, Hbuild.
Qed.

(** X22: when a successful upload is stamped later than every stored row, the
    next listing shows the new recording first, followed by the previous
    listing unchanged. *)
Theorem newest_upload_is_listed_first env req w k :
  created_id (fst (post_recordings env req w)) = Some k ->
  Forall (fun x => earlier (createdAt x) (CURRENT_TIMESTAMP env))
    (recordings (db w)) ->
  exists row,
    id row = k /\
    createdAt row = CURRENT_TIMESTAMP env /\
    get_recordings (snd (post_recordings env req w))
    = (mkResponse 200 (JsonRecordings (row :: map js_row (select_all (db w)))),
       snd (post_recordings env req w)).
Proof.
  intros Hk Hlater.
  destruct (post_recordings_cases env req w)
    as [[_ Heq] | [(f & _ & _ & Heq) | (f & k' & d & _ & _ & Hins & Heq)]];
    rewrite Heq in *; try discriminate.
  cbn [fst snd] in *. injection Hk as <-.
  apply insert_recording_inv in Hins as (_ & _ & _ & _ & Hrows).
  pose (row := mkRecording k' (uniqueName_at (Date_now env))
                 (getPublicUrl "uploads" (uniqueName_at (Date_now env)))
                 (size f) (CURRENT_TIMESTAMP env)).
  exists (js_row row). split; [reflexivity|]. split; [reflexivity|].
  rewrite get_recordings_eq. unfold select_all. cbn [db].
  rewrite Hrows. fold row.
  now rewrite (order_by_snoc (recordings (db w)) row Hlater).
Qed.

End Server.

(* ------------------------------------------------------------------ *)
(** ** The claims on concrete requests *)

Lemma upload_failure_inserts_no_row_witness :
  fst (post_recordings Sample.getPublicUrl Sample.env_upload_fails
         Sample.upload_request Sample.stocked)
  = mkResponse 500 (JsonError "Failed to upload recording") /\
  db (snd (post_recordings Sample.getPublicUrl Sample.env_upload_fails
             Sample.upload_request Sample.stocked))
  = db Sample.stocked.
Proof.
  apply (upload_failure_inserts_no_row Sample.getPublicUrl Sample.env_upload_fails
           Sample.upload_request Sample.stocked Sample.webm Sample.storage_down);
    reflexivity.
Defined.

Lemma remove_failure_keeps_row_witness :
  fst (delete_recording Sample.text_to_rowid Sample.env_remove_fails "1" Sample.stocked)
  = mkResponse 500 (JsonError "Failed to delete file from Supabase") /\
  db (snd (delete_recording Sample.text_to_rowid Sample.env_remove_fails "1"
             Sample.stocked))
  = db Sample.stocked /\
  present Sample.text_to_rowid "1"
    (db (snd (delete_recording Sample.text_to_rowid Sample.env_remove_fails "1"
                Sample.stocked))) /\
  List.length
    (recordings (db (snd (delete_recording Sample.text_to_rowid
                            Sample.env_remove_fails "1" Sample.stocked))))
  = List.length (recordings (db Sample.stocked)).
Proof.
  apply (remove_failure_keeps_row Sample.text_to_rowid Sample.env_remove_fails "1"
           Sample.stocked Sample.storage_down).
  - exists Sample.row1. split; [now left|reflexivity].
  - reflexivity.
Defined.

Lemma delete_removes_exactly_that_row_witness :
  exists before r after,
    recordings (db Sample.stocked) = before ++ r :: after /\
    Sample.text_to_rowid "1" = Some (id r) /\
    fst (delete_recording Sample.text_to_rowid Sample.env1 "1" Sample.stocked)
    = mkResponse 200 (JsonMessage "Recording deleted successfully") /\
    recordings
      (db (snd (delete_recording Sample.text_to_rowid Sample.env1 "1" Sample.stocked)))
    = before ++ after /\
    forall history q rows,
      Sample.text_to_rowid q = Some (id r) ->
      body (fst (get_recordings
                   (snd (serve Sample.encodeUrl Sample.text_to_rowid Sample.getPublicUrl
                           Sample.express_json Sample.express_static None history
                           (snd (delete_recording Sample.text_to_rowid Sample.env1
                                   "1" Sample.stocked))))))
      = JsonRecordings rows ->
      ~ In (id r)
          (map id
             (recordings
                (db (snd (serve Sample.encodeUrl Sample.text_to_rowid
                            Sample.getPublicUrl Sample.express_json
                            Sample.express_static None history
                            (snd (delete_recording Sample.text_to_rowid Sample.env1
                                    "1" Sample.stocked))))))) /\
      (Z.abs (id r) < 2 ^ 53 -> ~ In (id r) (map id rows)) /\
      fst (get_recording Sample.encodeUrl Sample.text_to_rowid q
             (snd (serve Sample.encodeUrl Sample.text_to_rowid Sample.getPublicUrl
                     Sample.express_json Sample.express_static None history
                     (snd (delete_recording Sample.text_to_rowid Sample.env1
                             "1" Sample.stocked)))))
      = mkResponse 404 (JsonError "Recording not found").
Proof.
  apply (delete_removes_exactly_that_row Sample.encodeUrl Sample.text_to_rowid Sample.getPublicUrl
           Sample.express_json Sample.express_static None Sample.env1 "1"
           Sample.stocked).
  - split.
    + simpl. repeat constructor; simpl; intuition discriminate.
    + simpl. repeat constructor; simpl; lia.
  - exists Sample.row1. split; [now left|reflexivity].
  - reflexivity.
Defined.

Lemma delete_unknown_id_changes_nothing_witness :
  fst (delete_recording Sample.text_to_rowid Sample.env1 "7" Sample.stocked)
  = mkResponse 404 (JsonError "Recording not found") /\
  storage_calls (snd (delete_recording Sample.text_to_rowid Sample.env1 "7"
                        Sample.stocked))
  = storage_calls Sample.stocked /\
  db (snd (delete_recording Sample.text_to_rowid Sample.env1 "7" Sample.stocked))
  = db Sample.stocked.
Proof.
  apply (delete_unknown_id_changes_nothing Sample.text_to_rowid Sample.env1 "7"
           Sample.stocked).
  intros r [<-|[<-|[]]] H; vm_compute in H; discriminate H.
Defined.

Lemma listing_is_newest_first_witness :
  exists rows,
    get_recordings (snd (create_all Sample.getPublicUrl Sample.two_uploads Sample.fresh))
    = (mkResponse 200 (JsonRecordings rows),
       snd (create_all Sample.getPublicUrl Sample.two_uploads Sample.fresh)) /\
    List.length rows = 2%nat /\
    rows = rev (map js_row
                  (recordings
                     (db (snd (create_all Sample.getPublicUrl Sample.two_uploads
                                 Sample.fresh))))) /\
    map id rows = [2; 1] /\
    map createdAt rows = ["2025-01-01 10:00:05"%string; "2025-01-01 10:00:00"%string].
Proof.
  apply (proj2 (listing_is_newest_first Sample.getPublicUrl) Sample.two_uploads
           Sample.fresh
           (fst (create_all Sample.getPublicUrl Sample.two_uploads Sample.fresh))
           (snd (create_all Sample.getPublicUrl Sample.two_uploads Sample.fresh))).
  - reflexivity.
  - reflexivity.
  - repeat constructor.
  - repeat constructor.
Defined.

Lemma created_ids_strictly_increase_witness :
  StronglySorted Z.lt
    (created_ids
       (fst (serve Sample.encodeUrl Sample.text_to_rowid Sample.getPublicUrl
               Sample.express_json Sample.express_static None
               (Sample.two_uploads
                ++ [(Sample.env1, mkRequest DELETE (ApiRecordingsId "2") None None);
                    (Sample.env2, Sample.upload_request)])
               Sample.fresh))) /\
  NoDup
    (created_ids
       (fst (serve Sample.encodeUrl Sample.text_to_rowid Sample.getPublicUrl
               Sample.express_json Sample.express_static None
               (Sample.two_uploads
                ++ [(Sample.env1, mkRequest DELETE (ApiRecordingsId "2") None None);
                    (Sample.env2, Sample.upload_request)])
               Sample.fresh))) /\
  Forall (fun k => sqlite_sequence (db Sample.fresh) < k)
    (created_ids
       (fst (serve Sample.encodeUrl Sample.text_to_rowid Sample.getPublicUrl
               Sample.express_json Sample.express_static None
               (Sample.two_uploads
                ++ [(Sample.env1, mkRequest DELETE (ApiRecordingsId "2") None None);
                    (Sample.env2, Sample.upload_request)])
               Sample.fresh))).
Proof.
  apply (proj2 (created_ids_strictly_increase Sample.encodeUrl Sample.text_to_rowid
                  Sample.getPublicUrl Sample.express_json Sample.express_static
                  None
                  (Sample.two_uploads
                   ++ [(Sample.env1,
                        mkRequest DELETE (ApiRecordingsId "2") None None);
                       (Sample.env2, Sample.upload_request)])
                  Sample.fresh)).
  vm_compute. discriminate.
Defined.

Lemma created_answer_matches_row_witness :
  exists answered row,
    body (fst (post_recordings Sample.getPublicUrl Sample.env1 Sample.upload_request
                 Sample.stocked))
    = JsonUploaded "Recording uploaded successfully" answered /\
    recordings (db (snd (post_recordings Sample.getPublicUrl Sample.env1
                           Sample.upload_request Sample.stocked)))
    = recordings (db Sample.stocked) ++ [row] /\
    id answered = js_number (id row) /\
    (id row <= 2 ^ 53 -> id answered = id row) /\
    filename answered = filename row /\
    url answered = url row /\
    filesize answered = filesize row /\
    createdAt row = "2025-01-01 10:00:00"%string /\
    createdAt answered = "2025-01-01T10:00:00.412Z"%string.
Proof.
  apply (created_answer_matches_row Sample.getPublicUrl Sample.env1
           Sample.upload_request Sample.stocked
           (fst (post_recordings Sample.getPublicUrl Sample.env1
                   Sample.upload_request Sample.stocked))
           (snd (post_recordings Sample.getPublicUrl Sample.env1
                   Sample.upload_request Sample.stocked)));
    reflexivity.
Defined.

Lemma unmatched_route_is_not_found_witness :
  app Sample.encodeUrl Sample.text_to_rowid Sample.getPublicUrl Sample.express_json
    Sample.express_static (Some Sample.dist) Sample.env1 Sample.put_request
    Sample.stocked
  = (mkResponse 404 (Text "Route not found"), Sample.stocked).
Proof.
  apply (unmatched_route_is_not_found Sample.encodeUrl Sample.text_to_rowid Sample.getPublicUrl
           Sample.express_json Sample.express_static (Some Sample.dist)
           Sample.env1 Sample.put_request Sample.stocked).
  - reflexivity.
  - reflexivity.
  - reflexivity.
  - split; [reflexivity|]. split; discriminate.
Defined.

Lemma create_without_file_is_rejected_witness :
  fst (post_recordings Sample.getPublicUrl Sample.env1 Sample.no_file_request
         Sample.stocked)
  = mkResponse 400 (JsonError "No file uploaded") /\
  storage_calls (snd (post_recordings Sample.getPublicUrl Sample.env1
                        Sample.no_file_request Sample.stocked))
  = storage_calls Sample.stocked /\
  db (snd (post_recordings Sample.getPublicUrl Sample.env1 Sample.no_file_request
             Sample.stocked))
  = db Sample.stocked.
Proof.
  apply (create_without_file_is_rejected Sample.getPublicUrl Sample.env1
           Sample.no_file_request Sample.stocked).
  reflexivity.
Defined.

Lemma stored_name_is_url_tail_witness :
  exists f row,
    file Sample.upload_request = Some f /\
    recordings (db (snd (post_recordings Sample.getPublicUrl Sample.env1
                           Sample.upload_request Sample.fresh)))
    = recordings (db Sample.fresh) ++ [row] /\
    storage_calls (snd (post_recordings Sample.getPublicUrl Sample.env1
                          Sample.upload_request Sample.fresh))
    = storage_calls Sample.fresh
      ++ [Upload "uploads" (filename row) (buffer f) "video/webm"] /\
    Js.pop (Js.split "/" (url row)) = filename row /\
    forall env2 p w2,
      select_by_id Sample.text_to_rowid p (db w2) = Some row ->
      storage_calls (snd (delete_recording Sample.text_to_rowid env2 p w2))
      = storage_calls w2 ++ [Remove "uploads" [filename row]].
Proof.
  apply (stored_name_is_url_tail Sample.text_to_rowid Sample.getPublicUrl Sample.env1
           Sample.upload_request Sample.fresh
           (fst (post_recordings Sample.getPublicUrl Sample.env1
                   Sample.upload_request Sample.fresh))
           (snd (post_recordings Sample.getPublicUrl Sample.env1
                   Sample.upload_request Sample.fresh))
           Sample.public_base);
    reflexivity.
Defined.

(** C5, as stated, fails: two successful uploads with distinct creation
    timestamps, the second taken after the clock was set back.  The listing
    follows the timestamps (ids 1, 2); reverse insertion order is 2, 1. *)
Lemma listing_follows_clock_not_insertion :
  exists rs w' rows,
    create_all Sample.getPublicUrl Sample.clock_set_back Sample.fresh = (rs, w') /\
    Forall created rs /\
    NoDup (timestamps Sample.clock_set_back) /\
    get_recordings w' = (mkResponse 200 (JsonRecordings rows), w') /\
    map id rows = [1; 2] /\
    rev (created_ids rs) = [2; 1] /\
    rows <> rev (recordings (db w')).
Proof.
  eexists; eexists; eexists.
  split; [vm_compute; reflexivity|].
  split; [repeat constructor|].
  split.
  { repeat constructor; simpl; intuition discriminate. }
  split; [reflexivity|].
  split; [reflexivity|].
  split; [reflexivity|].
  vm_compute. discriminate.
Qed.

(** C3, as stated, fails: with the rowids 2^53 and 2^53 + 1 stored, deleting
    the first removes its row, and the next listing still shows a recording
    under the id 9007199254740992: the other row, read as a number. *)
Lemma listing_shows_a_deleted_id_beyond_2_53 :
  db_wf (db Sample.beyond) /\
  present Sample.text_to_rowid "9007199254740992" (db Sample.beyond) /\
  fst (delete_recording Sample.text_to_rowid Sample.env1 "9007199254740992"
         Sample.beyond)
  = mkResponse 200 (JsonMessage "Recording deleted successfully") /\
  recordings
    (db (snd (delete_recording Sample.text_to_rowid Sample.env1 "9007199254740992"
                Sample.beyond)))
  = [Sample.rowY] /\
  exists rows,
    fst (get_recordings
           (snd (delete_recording Sample.text_to_rowid Sample.env1
                   "9007199254740992" Sample.beyond)))
    = mkResponse 200 (JsonRecordings rows) /\
    In 9007199254740992 (map id rows).
Proof.
  split.
  { split; simpl.
    - repeat constructor; simpl; intuition discriminate.
    - repeat constructor; simpl; lia. }
  split; [exists Sample.rowX; split; [now left|reflexivity]|].
  split; [reflexivity|]. split; [reflexivity|].
  eexists. split; [reflexivity|]. vm_compute. now left.
Qed.

(** C6, as stated, fails: from a counter at 2^53 - 1 two successful creates
    are assigned the rowids 2^53 and 2^53 + 1 and both report the id
    9007199254740992. *)
Lemma created_ids_repeat_beyond_2_53 :
  created_ids
    (fst (serve Sample.encodeUrl Sample.text_to_rowid Sample.getPublicUrl
            Sample.express_json Sample.express_static None Sample.two_uploads
            Sample.at_limit))
  = [9007199254740992; 9007199254740992] /\
  map id
    (recordings
       (db (snd (serve Sample.encodeUrl Sample.text_to_rowid Sample.getPublicUrl
                   Sample.express_json Sample.express_static None
                   Sample.two_uploads Sample.at_limit))))
  = [9007199254740992; 9007199254740993] /\
  ~ StronglySorted Z.lt
      (created_ids
         (fst (serve Sample.encodeUrl Sample.text_to_rowid Sample.getPublicUrl
                 Sample.express_json Sample.express_static None
                 Sample.two_uploads Sample.at_limit))).
Proof.
  split; [reflexivity|]. split; [reflexivity|].
  intros H.
  replace (created_ids _) with [9007199254740992; 9007199254740992] in H
    by reflexivity.
  apply StronglySorted_inv in H as [_ H].
  apply Forall_inv in H. lia.
Qed.

(** C7, as stated, fails: the answer's [createdAt] is the handler's ISO
    reading, the stored one is SQLite's CURRENT_TIMESTAMP text; and with the
    counter at 2^53 the answer's id is 9007199254740992 for the stored rowid
    9007199254740993. *)
Lemma created_answer_timestamp_is_not_the_stored_one :
  (exists answered row w',
     post_recordings Sample.getPublicUrl Sample.env1 Sample.upload_request Sample.fresh
     = (mkResponse 201 (JsonUploaded "Recording uploaded successfully" answered), w') /\
     recordings (db w') = [row] /\
     id answered = id row /\
     createdAt row = "2025-01-01 10:00:00"%string /\
     createdAt answered = "2025-01-01T10:00:00.412Z"%string /\
     createdAt answered <> createdAt row /\
     answered <> row) /\
  (exists answered row w',
     post_recordings Sample.getPublicUrl Sample.env1 Sample.upload_request
       Sample.past_limit
     = (mkResponse 201 (JsonUploaded "Recording uploaded successfully" answered), w') /\
     recordings (db w') = [row] /\
     id answered = 9007199254740992 /\
     id row = 9007199254740993).
Proof.
  split.
  - eexists; eexists; eexists.
    split; [vm_compute; reflexivity|].
    split; [reflexivity|].
    repeat split; discriminate.
  - eexists; eexists; eexists.
    split; [vm_compute; reflexivity|].
    split; [reflexivity|].
    split; reflexivity.
Qed.

(** C8, as stated, fails: with a frontend build in place, a GET that no API
    route takes is answered with the build's [index.html]; and a request
    from an origin outside the allow-list never reaches the 404 middleware. *)
Lemma unmatched_get_is_served_the_frontend :
  api_route Sample.page_request = false /\
  app Sample.encodeUrl Sample.text_to_rowid Sample.getPublicUrl Sample.express_json
    Sample.express_static (Some Sample.dist) Sample.env1 Sample.page_request
    Sample.fresh
  = (mkResponse 200 (SendFile "/app/frontend/dist/index.html"), Sample.fresh) /\
  api_route Sample.foreign_request = false /\
  app Sample.encodeUrl Sample.text_to_rowid Sample.getPublicUrl Sample.express_json
    Sample.express_static None Sample.env1 Sample.foreign_request Sample.fresh
  = (mkResponse 500 ErrorPage, Sample.fresh).
Proof.
  repeat split.
Qed.

(* ------------------------------------------------------------------ *)
(** ** The further properties on concrete requests *)

Lemma stocked_wf : db_wf (db Sample.stocked).
Proof.
  split; simpl.
  - repeat constructor; simpl; intuition discriminate.
  - repeat constructor; simpl; lia.
Qed.

Lemma create_appends_next_rowid_witness :
  created_id (fst (post_recordings Sample.getPublicUrl Sample.env2 Sample.upload_request Sample.stocked))
  = Some 3 /\
  map id (recordings
            (db (snd (post_recordings Sample.getPublicUrl Sample.env2 Sample.upload_request Sample.stocked))))
  = [1; 2; 3].
Proof.
  rewrite (create_appends_next_rowid Sample.getPublicUrl Sample.env2
             Sample.upload_request Sample.stocked Sample.webm stocked_wf).
  - split; reflexivity.
  - simpl. unfold MAX_ROWID. lia.
  - reflexivity.
  - reflexivity.
Defined.

Lemma exhausted_keys_leave_an_orphan_object_witness :
  fst (post_recordings Sample.getPublicUrl Sample.env1 Sample.upload_request Sample.exhausted)
  = mkResponse 500 (JsonError "Failed to upload recording") /\
  db (snd (post_recordings Sample.getPublicUrl Sample.env1 Sample.upload_request Sample.exhausted))
  = db Sample.exhausted /\
  storage_calls (snd (post_recordings Sample.getPublicUrl Sample.env1 Sample.upload_request Sample.exhausted))
  = [Upload "uploads" "recording-1735725600000.webm" (buffer Sample.webm)
       "video/webm"].
Proof.
  apply (exhausted_keys_leave_an_orphan_object Sample.getPublicUrl Sample.env1
           Sample.upload_request Sample.exhausted Sample.webm).
  - apply Z.le_refl.
  - reflexivity.
  - reflexivity.
Defined.

Lemma get_recording_redirects_to_stored_url_witness :
  get_recording Sample.encodeUrl Sample.text_to_rowid "2" Sample.stocked
  = (mkResponse 302 (Redirect (url Sample.row2)), Sample.stocked).
Proof.
  apply (get_recording_redirects_to_stored_url Sample.encodeUrl Sample.text_to_rowid "2"
           Sample.stocked Sample.row2 stocked_wf).
  - right. now left.
  - reflexivity.
Defined.

Lemma get_recording_unknown_id_is_not_found_witness :
  get_recording Sample.encodeUrl Sample.text_to_rowid "latest" Sample.stocked
  = (mkResponse 404 (JsonError "Recording not found"), Sample.stocked).
Proof.
  apply (get_recording_unknown_id_is_not_found Sample.encodeUrl Sample.text_to_rowid "latest"
           Sample.stocked).
  left. reflexivity.
Defined.

Lemma only_upload_and_delete_change_the_world_witness :
  (method Sample.upload_request = POST /\
   path Sample.upload_request = ApiRecordings /\
   file Sample.upload_request <> None) \/
  (method Sample.upload_request = DELETE /\
   exists p, path Sample.upload_request = ApiRecordingsId p /\
             select_by_id Sample.text_to_rowid p (db Sample.stocked) <> None).
Proof.
  apply (only_upload_and_delete_change_the_world Sample.encodeUrl Sample.text_to_rowid
           Sample.getPublicUrl Sample.express_json Sample.express_static None
           Sample.env2 Sample.upload_request Sample.stocked).
  intros H. apply (f_equal (fun w => List.length (storage_calls w))) in H.
  vm_compute in H. discriminate H.
Defined.

Lemma refused_origin_reaches_no_handler_witness :
  app Sample.encodeUrl Sample.text_to_rowid Sample.getPublicUrl Sample.express_json
    Sample.express_static (Some Sample.dist) Sample.env1 Sample.foreign_request Sample.stocked
  = (mkResponse 500 ErrorPage, Sample.stocked).
Proof.
  apply (refused_origin_reaches_no_handler Sample.encodeUrl Sample.text_to_rowid Sample.getPublicUrl
           Sample.express_json Sample.express_static (Some Sample.dist) Sample.env1
           Sample.foreign_request Sample.stocked "https://elsewhere.example").
  - reflexivity.
  - discriminate.
  - intros [H|[H|[]]]; discriminate H.
Defined.

Lemma second_delete_is_not_found_witness :
  delete_recording Sample.text_to_rowid Sample.env2 "1" (snd (delete_recording Sample.text_to_rowid Sample.env1 "1" Sample.stocked))
  = (mkResponse 404 (JsonError "Recording not found"),
     snd (delete_recording Sample.text_to_rowid Sample.env1 "1" Sample.stocked)).
Proof.
  apply (second_delete_is_not_found Sample.text_to_rowid Sample.env1 Sample.env2
           "1" Sample.stocked).
  reflexivity.
Defined.

Lemma failed_delete_can_be_retried_witness :
  exists r,
    select_by_id Sample.text_to_rowid "1" (db Sample.stocked) = Some r /\
    fst (delete_recording Sample.text_to_rowid Sample.env1 "1"
           (snd (delete_recording Sample.text_to_rowid Sample.env_remove_fails "1" Sample.stocked)))
    = mkResponse 200 (JsonMessage "Recording deleted successfully") /\
    db (snd (delete_recording Sample.text_to_rowid Sample.env1 "1"
               (snd (delete_recording Sample.text_to_rowid Sample.env_remove_fails "1" Sample.stocked))))
    = delete_by_id Sample.text_to_rowid "1" (db Sample.stocked) /\
    absent Sample.text_to_rowid "1"
      (db (snd (delete_recording Sample.text_to_rowid Sample.env1 "1"
                  (snd (delete_recording Sample.text_to_rowid Sample.env_remove_fails "1" Sample.stocked))))) /\
    storage_calls
      (snd (delete_recording Sample.text_to_rowid Sample.env1 "1"
              (snd (delete_recording Sample.text_to_rowid Sample.env_remove_fails "1" Sample.stocked))))
    = storage_calls Sample.stocked
      ++ [Remove "uploads" [fileName_of (url r)];
          Remove "uploads" [fileName_of (url r)]].
Proof.
  apply (failed_delete_can_be_retried Sample.text_to_rowid Sample.env_remove_fails
           Sample.env1 "1" Sample.stocked Sample.storage_down).
  - exists Sample.row1. split; [now left|reflexivity].
  - reflexivity.
  - reflexivity.
Defined.

Lemma created_recording_can_be_fetched_witness :
  get_recording Sample.encodeUrl Sample.text_to_rowid "3" (snd (post_recordings Sample.getPublicUrl Sample.env2 Sample.upload_request Sample.stocked))
  = (mkResponse 302
       (Redirect (Sample.getPublicUrl "uploads" "recording-1735725605000.webm")),
     snd (post_recordings Sample.getPublicUrl Sample.env2 Sample.upload_request Sample.stocked)).
Proof.
  apply (created_recording_can_be_fetched Sample.encodeUrl Sample.text_to_rowid Sample.getPublicUrl
           Sample.env2 Sample.upload_request Sample.stocked "3" 3);
    reflexivity.
Defined.

Lemma create_then_delete_restores_the_rows_witness :
  fst (delete_recording Sample.text_to_rowid Sample.env1 "3"
         (snd (post_recordings Sample.getPublicUrl Sample.env2 Sample.upload_request Sample.stocked)))
  = mkResponse 200 (JsonMessage "Recording deleted successfully") /\
  recordings
    (db (snd (delete_recording Sample.text_to_rowid Sample.env1 "3"
                (snd (post_recordings Sample.getPublicUrl Sample.env2 Sample.upload_request Sample.stocked)))))
  = recordings (db Sample.stocked) /\
  sqlite_sequence
    (db (snd (delete_recording Sample.text_to_rowid Sample.env1 "3"
                (snd (post_recordings Sample.getPublicUrl Sample.env2 Sample.upload_request Sample.stocked)))))
  = 3 /\
  sqlite_sequence (db Sample.stocked) < 3.
Proof.
  apply (create_then_delete_restores_the_rows Sample.text_to_rowid
           Sample.getPublicUrl Sample.env2 Sample.env1 Sample.upload_request
           Sample.stocked "3" 3);
    reflexivity.
Defined.

Lemma distinct_instants_give_distinct_names_witness :
  uniqueName_at 1735725600000 <> uniqueName_at 1735725605000.
Proof.
  apply (distinct_instants_give_distinct_names 1735725600000 1735725605000).
  discriminate.
Defined.

Lemma same_instant_uploads_share_one_object_witness :
  exists rowA rowB,
    recordings
      (db (snd (post_recordings Sample.getPublicUrl Sample.env1_again Sample.upload_request
                  (snd (post_recordings Sample.getPublicUrl Sample.env1 Sample.upload_request Sample.fresh)))))
    = [rowA; rowB] /\
    id rowA < id rowB /\
    filename rowA = filename rowB /\
    url rowA = url rowB.
Proof.
  destruct (same_instant_uploads_share_one_object Sample.text_to_rowid
              Sample.getPublicUrl Sample.env1 Sample.env1_again
              Sample.upload_request Sample.upload_request Sample.fresh
              eq_refl eq_refl eq_refl)
    as (rowA & rowB & fA & fB & Hrows & Hid & Hname & Hurl & _).
  exists rowA, rowB. repeat split; assumption.
Defined.

Lemma reachable_delete_removes_the_uploaded_object_witness :
  storage_calls
    (snd (delete_recording Sample.text_to_rowid Sample.env1 "2"
            (snd (serve Sample.encodeUrl Sample.text_to_rowid Sample.getPublicUrl Sample.express_json
    Sample.express_static None Sample.two_uploads Sample.fresh))))
  = storage_calls (snd (serve Sample.encodeUrl Sample.text_to_rowid Sample.getPublicUrl Sample.express_json
    Sample.express_static None Sample.two_uploads Sample.fresh))
    ++ [Remove "uploads" [filename Sample.row2]] /\
  exists payload,
    In (Upload "uploads" (filename Sample.row2) payload "video/webm")
      (storage_calls (snd (serve Sample.encodeUrl Sample.text_to_rowid Sample.getPublicUrl Sample.express_json
    Sample.express_static None Sample.two_uploads Sample.fresh))).
Proof.
  apply (reachable_delete_removes_the_uploaded_object Sample.encodeUrl Sample.text_to_rowid
           Sample.getPublicUrl Sample.express_json Sample.express_static None
           Sample.two_uploads [] Sample.env1 "2" Sample.row2 Sample.public_base).
  - intros now. reflexivity.
  - reflexivity.
Defined.

Lemma row_count_follows_the_answers_witness :
  (List.length
     (recordings
        (db (snd (serve Sample.encodeUrl Sample.text_to_rowid Sample.getPublicUrl Sample.express_json
    Sample.express_static None
                    (Sample.two_uploads
                     ++ [(Sample.env1,
                          mkRequest DELETE (ApiRecordingsId "1") None None)])
                    Sample.fresh))))
   + 1 = 0 + 2)%nat.
Proof.
  apply (row_count_follows_the_answers Sample.encodeUrl Sample.text_to_rowid Sample.getPublicUrl
           Sample.express_json Sample.express_static None
           (Sample.two_uploads
            ++ [(Sample.env1, mkRequest DELETE (ApiRecordingsId "1") None None)])
           Sample.fresh).
  exact empty_db_wf.
Defined.

Lemma frontend_build_answers_unmatched_get_witness :
  app Sample.encodeUrl Sample.text_to_rowid Sample.getPublicUrl Sample.express_json
    Sample.express_static (choose_buildFolder Sample.existsSync Sample.frontendDir) Sample.env1
    Sample.page_request Sample.stocked
  = (mkResponse 200 (SendFile "/app/frontend/dist/index.html"), Sample.stocked).
Proof.
  apply (proj1 (frontend_build_answers_unmatched_get Sample.encodeUrl Sample.text_to_rowid
                  Sample.getPublicUrl Sample.express_json Sample.express_static
                  (choose_buildFolder Sample.existsSync Sample.frontendDir)
                  Sample.env1 Sample.page_request Sample.stocked
                  Sample.existsSync Sample.frontendDir
                  eq_refl eq_refl eq_refl eq_refl (or_introl eq_refl)));
    reflexivity.
Defined.

Lemma newest_upload_is_listed_first_witness :
  exists row,
    id row = 3 /\
    createdAt row = "2025-01-01 10:01:40"%string /\
    get_recordings
      (snd (post_recordings Sample.getPublicUrl Sample.env_remove_fails
              Sample.upload_request Sample.stocked))
    = (mkResponse 200 (JsonRecordings (row :: select_all (db Sample.stocked))),
       snd (post_recordings Sample.getPublicUrl Sample.env_remove_fails
              Sample.upload_request Sample.stocked)).
Proof.
  apply (newest_upload_is_listed_first Sample.getPublicUrl Sample.env_remove_fails
           Sample.upload_request Sample.stocked 3).
  - reflexivity.
  - repeat constructor.
Defined.
